(** * Setoran harian: the calculation engine and its CRUD routes

    A shallow embedding of [api/routes/setoran.py], [api/schemas/setoran.py]
    and [api/models/setoran.py].

    Numbers.  The Python code computes on [float].  The specification speaks
    of real numbers, and the model follows it: every [float] is an exact
    rational of [Q]; rounding, infinities and NaN are not represented.
    Equality of amounts is [Qeq] ([==]) unless a statement says otherwise.
    The one question that rounding decides, whether the order of the items
    matters, is settled in the last part on binary64 numbers.

    Strings.  A [str] is a [string] whose characters are the code points
    below 256. *)

From Stdlib Require Import QArith Qminmax Lqa List String Ascii Bool.
From Stdlib Require Import NArith ZArith Lia Permutation.
From Stdlib Require Import Floats.
Import ListNotations.

Open Scope string_scope.
Open Scope Q_scope.

(** ** Python builtins used by the routes *)

(** [str.isspace] on one character: TAB..CR, FS..US, space, NEL and NBSP. *)
Definition isspace (c : ascii) : bool :=
  let n := N_of_ascii c in
  ((9 <=? n) && (n <=? 13) || (28 <=? n) && (n <=? 32)
   || (n =? 133) || (n =? 160))%N.

Fixpoint lstrip (s : string) : string :=
  match s with
  | EmptyString => EmptyString
  | String c s' => if isspace c then lstrip s' else s
  end.

Fixpoint rstrip (s : string) : string :=
  match s with
  | EmptyString => EmptyString
  | String c s' =>
      match rstrip s' with
      | EmptyString => if isspace c then EmptyString else String c EmptyString
      | r => String c r
      end
  end.

(** [s.strip()] *)
Definition strip (s : string) : string := rstrip (lstrip s).

(** Truth value of a [str]: the empty string is false. *)
Definition str_truthy (s : string) : bool :=
  match s with EmptyString => false | String _ _ => true end.

(** [a > b] on numbers. *)
Definition Qgtb (a b : Q) : bool :=
  match a ?= b with Gt => true | _ => false end.

(** [a < b] and [a >= b] on numbers. *)
Definition Qltb (a b : Q) : bool :=
  match a ?= b with Lt => true | _ => false end.

Definition Qgeb (a b : Q) : bool := negb (Qltb a b).

(** [max(a, b)]: the first argument is kept unless the second is strictly
    greater. *)
Definition py_max (a b : Q) : Q := if Qgtb b a then b else a.

(** [sum(xs)]: a left fold that starts at 0. *)
Definition py_sum (xs : list Q) : Q := fold_left Qplus xs 0.

(** ** Schemas *)

(** [ExpenseItem] and [IncomeItem] have the same three fields. *)
Record LineItem : Type := mkItem {
  item_id : string;
  description : string;
  amount : Q
}.

Record SetoranCreate : Type := mkCreate {
  employee_name : string;
  jam_masuk : string;
  jam_keluar : string;
  nomor_awal : Q;
  nomor_akhir : Q;
  qris_setoran : Q;
  expenses : list LineItem;
  income : list LineItem
}.

Record SetoranCalculation : Type := mkCalc {
  total_liter : Q;
  total_setoran : Q;
  cash_setoran : Q;
  total_expenses : Q;
  total_income : Q;
  total_keseluruhan : Q
}.

(** ** The engine: [calculate_setoran] *)

(** The condition of the two generator expressions:
    [item.description.strip() and item.amount > 0]. *)
Definition counted (it : LineItem) : bool :=
  str_truthy (strip (description it)) && Qgtb (amount it) 0.

Definition total_of (items : list LineItem) : Q :=
  py_sum (map amount (filter counted items)).

Definition UNIT_PRICE : Q := 11500.

Definition calculate_setoran (data : SetoranCreate) : SetoranCalculation :=
  let total_liter := py_max 0 (nomor_akhir data - nomor_awal data) in
  let total_setoran := total_liter * UNIT_PRICE in
  let cash_setoran := py_max 0 (total_setoran - qris_setoran data) in
  let total_expenses := total_of (expenses data) in
  let total_income := total_of (income data) in
  let total_keseluruhan := cash_setoran + total_income - total_expenses in
  mkCalc total_liter total_setoran cash_setoran
         total_expenses total_income total_keseluruhan.

(** [preview_calculation] returns the engine's result and touches nothing. *)
Definition preview_calculation (data : SetoranCreate) : SetoranCalculation :=
  calculate_setoran data.

(** ** Request payloads and validation *)

(** A field of a JSON object or of a keyword-argument set: absent, present
    with [None]/[null], or present with a value.  [dict(exclude_unset=True)]
    keeps the last two. *)
Inductive field (A : Type) : Type :=
| Unset
| Null
| Given (a : A).
Arguments Unset {A}.
Arguments Null {A}.
Arguments Given {A} a.

(** The eight field names shared by [SetoranCreate] and [SetoranUpdate]. *)
Record Payload : Type := mkPayload {
  f_employee_name : field string;
  f_jam_masuk : field string;
  f_jam_keluar : field string;
  f_nomor_awal : field Q;
  f_nomor_akhir : field Q;
  f_qris_setoran : field Q;
  f_expenses : field (list LineItem);
  f_income : field (list LineItem)
}.

(** [key in update_data] *)
Definition is_set {A} (f : field A) : bool :=
  match f with Unset => false | _ => true end.

(** [update_data.get(key, default)] as a keyword argument. *)
Definition get {A} (f : field A) (default : A) : field A :=
  match f with Unset => Given default | _ => f end.

(** [Field(..., min_length=1)] and [Field(..., ge=0)] of the item models. *)
Definition item_ok (it : LineItem) : bool :=
  (1 <=? String.length (description it))%nat && Qgeb (amount it) 0.

Definition in_range (lo hi : N) (c : ascii) : bool :=
  ((lo <=? N_of_ascii c) && (N_of_ascii c <=? hi))%N.

(** The pattern [^([01]?[0-9]|2[0-3]):[0-5][0-9]$]. *)
Definition time_pattern (s : string) : bool :=
  match list_ascii_of_string s with
  | [h; c; m1; m2] =>
      in_range 48 57 h && in_range 58 58 c
      && in_range 48 53 m1 && in_range 48 57 m2
  | [h1; h2; c; m1; m2] =>
      ((in_range 48 49 h1 && in_range 48 57 h2)
       || (in_range 50 50 h1 && in_range 48 51 h2))
      && in_range 58 58 c
      && in_range 48 53 m1 && in_range 48 57 m2
  | _ => false
  end.

(** A required [str] field with a predicate on its value. *)
Definition required_str (ok : string -> bool) (f : field string)
  : option string :=
  match f with
  | Given s => if ok s then Some s else None
  | _ => None
  end.

(** A required [float] field with [ge=0]. *)
Definition required_ge0 (f : field Q) : option Q :=
  match f with
  | Given q => if Qgeb q 0 then Some q else None
  | _ => None
  end.

(** A [float] field with [ge=0] and a default. *)
Definition default_ge0 (default : Q) (f : field Q) : option Q :=
  match f with
  | Unset => Some default
  | Null => None
  | Given q => if Qgeb q 0 then Some q else None
  end.

(** [validate_nomor_akhir]: a [ValueError] is [None]. *)
Definition validate_nomor_akhir (v : Q) (values_nomor_awal : option Q)
  : option Q :=
  match values_nomor_awal with
  | Some awal => if Qltb v awal then None else Some v
  | None => Some v
  end.

(** The loop of [validate_expenses] and of [validate_income]. *)
Fixpoint validate_items (v : list LineItem) : bool :=
  match v with
  | [] => true
  | item :: rest =>
      if negb (str_truthy (strip (description item))) then false
      else if Qltb (amount item) 0 then false
      else validate_items rest
  end.

(** A list field: the default is taken as it is, a given list passes the
    item constraints and then the field's validator. *)
Definition list_field (f : field (list LineItem)) : option (list LineItem) :=
  match f with
  | Unset => Some []
  | Null => None
  | Given v => if forallb item_ok v && validate_items v then Some v else None
  end.

(** Construction of a [SetoranCreate]; [None] is a [ValidationError]. *)
Definition parse_SetoranCreate (p : Payload) : option SetoranCreate :=
  let name := required_str (fun s => (1 <=? String.length s)%nat)
                           (f_employee_name p) in
  let masuk := required_str time_pattern (f_jam_masuk p) in
  let keluar := required_str time_pattern (f_jam_keluar p) in
  let awal := required_ge0 (f_nomor_awal p) in
  let akhir :=
    match required_ge0 (f_nomor_akhir p) with
    | Some v => validate_nomor_akhir v awal
    | None => None
    end in
  let qris := default_ge0 0 (f_qris_setoran p) in
  let exps := list_field (f_expenses p) in
  let incs := list_field (f_income p) in
  match name, masuk, keluar, awal, akhir, qris, exps, incs with
  | Some n, Some m, Some k, Some a, Some b, Some q, Some e, Some i =>
      Some (mkCreate n m k a b q e i)
  | _, _, _, _, _, _, _, _ => None
  end.

(** [SetoranUpdate]: every field optional, only the item constraints apply. *)
Definition optional_list (f : field (list LineItem)) : bool :=
  match f with
  | Given v => forallb item_ok v
  | _ => true
  end.

Definition parse_SetoranUpdate (p : Payload) : option Payload :=
  if optional_list (f_expenses p) && optional_list (f_income p)
  then Some p else None.

(** ** The table [setoran_harian] *)

(** One row.  The two timestamp columns are filled by the database server
    and read by no route; they are left out. *)
Record Setoran : Type := mkRow {
  db_id : Z;
  db_employee_name : string;
  db_jam_masuk : string;
  db_jam_keluar : string;
  db_nomor_awal : Q;
  db_nomor_akhir : Q;
  db_total_liter : Q;
  db_total_setoran : Q;
  db_qris_setoran : Q;
  db_cash_setoran : Q;
  expenses_data : option string;
  db_total_expenses : Q;
  income_data : option string;
  db_total_income : Q;
  db_total_keseluruhan : Q
}.

(** The committed rows, oldest first. *)
Definition Db : Type := list Setoran.

(** [db.query(Setoran).filter(Setoran.id == setoran_id).first()] *)
Definition query_first (setoran_id : Z) (db : Db) : option Setoran :=
  find (fun r => (db_id r =? setoran_id)%Z) db.

(** The primary key given to a new row: one more than the largest in use. *)
Definition fresh_id (db : Db) : Z :=
  (1 + fold_right (fun r m => Z.max (db_id r) m) 0 db)%Z.

(** Commit of a new row. *)
Definition db_add (r : Setoran) (db : Db) : Db := (db ++ [r])%list.

(** Commit of a changed row. *)
Definition db_replace (r : Setoran) (db : Db) : Db :=
  map (fun old => if (db_id old =? db_id r)%Z then r else old) db.

(** Commit of a deletion. *)
Definition db_delete (setoran_id : Z) (db : Db) : Db :=
  filter (fun r => negb (db_id r =? setoran_id)%Z) db.

(** ** JSON *)

(** [json.dumps] and [json.loads] on lists of items.  [json_loads] is [None]
    where Python raises [JSONDecodeError].  Text that is valid JSON but no
    array of items is not represented.  The three laws are what the routes
    use of the library: a dumped list loads back, a dumped text is never
    empty, and the literal ["[]"] is the empty array. *)
Class JsonCodec : Type := {
  json_dumps : list LineItem -> string;
  json_loads : string -> option (list LineItem);
  loads_dumps : forall l, json_loads (json_dumps l) = Some l;
  dumps_truthy : forall l, str_truthy (json_dumps l) = true;
  loads_empty_array : json_loads "[]" = Some []
}.

(** ** Responses *)

Inductive http_error : Type :=
| Unprocessable  (* 422, the request body fails its schema *)
| BadRequest     (* 400, raised by the [except] clause of a route *)
| NotFound       (* 404 *)
| ServerError.   (* 500, an exception no route catches *)

Inductive result (A : Type) : Type :=
| Ok (a : A)
| Err (e : http_error).
Arguments Ok {A} a.
Arguments Err {A} e.

Record SetoranResponse : Type := mkResponse {
  r_id : Z;
  r_employee_name : string;
  r_jam_masuk : string;
  r_jam_keluar : string;
  r_nomor_awal : Q;
  r_nomor_akhir : Q;
  r_total_liter : Q;
  r_total_setoran : Q;
  r_qris_setoran : Q;
  r_cash_setoran : Q;
  r_expenses : list LineItem;
  r_income : list LineItem;
  r_total_expenses : Q;
  r_total_income : Q;
  r_total_keseluruhan : Q
}.

(** What an attribute read by a [pre=True] validator can hold. *)
Inductive pyobj : Type :=
| PyNone
| PyStr (s : string)
| PyList (l : list LineItem).

Section Routes.

Context {codec : JsonCodec}.

(** [SetoranResponse.parse_expenses] and [parse_income]. *)
Definition parse_expenses (v : pyobj) : list LineItem :=
  match v with
  | PyStr s =>
      if str_truthy s then
        match json_loads s with
        | Some l => l
        | None => []   (* except json.JSONDecodeError: return [] *)
        end
      else []
  | PyList l => l
  | PyNone => []
  end.

(** Serialisation of a returned row through [response_model]: the two
    dynamic attributes pass [parse_expenses] and then the item models. *)
Definition to_response (r : Setoran) (expenses_attr income_attr : pyobj)
  : result SetoranResponse :=
  let e := parse_expenses expenses_attr in
  let i := parse_expenses income_attr in
  if forallb item_ok e && forallb item_ok i then
    Ok (mkResponse (db_id r) (db_employee_name r) (db_jam_masuk r)
          (db_jam_keluar r) (db_nomor_awal r) (db_nomor_akhir r)
          (db_total_liter r) (db_total_setoran r) (db_qris_setoran r)
          (db_cash_setoran r) e i (db_total_expenses r)
          (db_total_income r) (db_total_keseluruhan r))
  else Err ServerError.

(** [json.loads(text) if text else []] on a nullable column; the outer
    [None] is a raised [JSONDecodeError]. *)
Definition loads_if_truthy (column : option string)
  : option (list LineItem) :=
  match column with
  | Some text => if str_truthy text then json_loads text else Some []
  | None => Some []
  end.

(** [json.loads(text or '[]')] *)
Definition loads_or_empty_array (column : option string)
  : option (list LineItem) :=
  match column with
  | Some text => if str_truthy text then json_loads text else json_loads "[]"
  | None => json_loads "[]"
  end.

(** [json.dumps([...]) if items else "[]"] *)
Definition dumps_if_truthy (items : list LineItem) : string :=
  match items with
  | [] => "[]"
  | _ :: _ => json_dumps items
  end.

(** The body of [create_setoran]: the response and the database after the
    call. *)
Definition create_setoran (setoran_data : SetoranCreate) (db : Db)
  : result SetoranResponse * Db :=
  let calculation := calculate_setoran setoran_data in
  let expenses_json := dumps_if_truthy (expenses setoran_data) in
  let income_json := dumps_if_truthy (income setoran_data) in
  let db_setoran :=
    mkRow (fresh_id db)
          (employee_name setoran_data) (jam_masuk setoran_data)
          (jam_keluar setoran_data)
          (nomor_awal setoran_data) (nomor_akhir setoran_data)
          (total_liter calculation) (total_setoran calculation)
          (qris_setoran setoran_data) (cash_setoran calculation)
          (Some expenses_json) (total_expenses calculation)
          (Some income_json) (total_income calculation)
          (total_keseluruhan calculation) in
  let db' := db_add db_setoran db in   (* add, commit, refresh *)
  match loads_if_truthy (expenses_data db_setoran),
        loads_if_truthy (income_data db_setoran) with
  | Some e, Some i => (to_response db_setoran (PyList e) (PyList i), db')
  | _, _ => (Err BadRequest, db')      (* rollback after the commit *)
  end.

(** [POST /api/setoran/]: the body is parsed, then the route runs. *)
Definition post_setoran (body : Payload) (db : Db)
  : result SetoranResponse * Db :=
  match parse_SetoranCreate body with
  | Some setoran_data => create_setoran setoran_data db
  | None => (Err Unprocessable, db)
  end.

(** [POST /api/setoran/calculate] *)
Definition post_calculate (body : Payload) : result SetoranCalculation :=
  match parse_SetoranCreate body with
  | Some setoran_data => Ok (preview_calculation setoran_data)
  | None => Err Unprocessable
  end.

(** The loop body of [get_all_setoran] and the tail of [get_setoran_by_id]:
    the two [setattr] calls, outside any [try]. *)
Definition read_row (setoran : Setoran) : result SetoranResponse :=
  match loads_if_truthy (expenses_data setoran) with
  | None => Err ServerError
  | Some e =>
      match loads_if_truthy (income_data setoran) with
      | None => Err ServerError
      | Some i => to_response setoran (PyList e) (PyList i)
      end
  end.

(** All rows of a page, or the first failure. *)
Fixpoint read_rows (setoran_list : list Setoran)
  : result (list SetoranResponse) :=
  match setoran_list with
  | [] => Ok []
  | setoran :: rest =>
      match read_row setoran with
      | Err e => Err e
      | Ok r =>
          match read_rows rest with
          | Err e => Err e
          | Ok rs => Ok (r :: rs)
          end
      end
  end.

Definition get_all_setoran (skip limit : nat) (db : Db)
  : result (list SetoranResponse) :=
  read_rows (firstn limit (skipn skip db)).

Definition get_setoran_by_id (setoran_id : Z) (db : Db)
  : result SetoranResponse :=
  match query_first setoran_id db with
  | None => Err NotFound
  | Some setoran => read_row setoran
  end.

Definition delete_setoran (setoran_id : Z) (db : Db) : result unit * Db :=
  match query_first setoran_id db with
  | None => (Err NotFound, db)
  | Some _ => (Ok tt, db_delete setoran_id db)
  end.

(** The five keys whose presence in [update_data] triggers the
    recomputation. *)
Definition touches_financial (update_data : Payload) : bool :=
  is_set (f_nomor_awal update_data) || is_set (f_nomor_akhir update_data)
  || is_set (f_qris_setoran update_data)
  || is_set (f_expenses update_data) || is_set (f_income update_data).

(** The block under [if any(...)]: [None] is an exception raised inside it.
    The default of each [update_data.get] is evaluated before the call, so
    both stored texts are decoded whether or not the patch has the key. *)
Definition recompute (update_data : Payload) (db_setoran : Setoran)
  : option Setoran :=
  match loads_if_truthy (expenses_data db_setoran) with
  | None => None
  | Some stored_expenses =>
  match loads_if_truthy (income_data db_setoran) with
  | None => None
  | Some stored_income =>
  let kwargs :=
    mkPayload
      (get (f_employee_name update_data) (db_employee_name db_setoran))
      (get (f_jam_masuk update_data) (db_jam_masuk db_setoran))
      (get (f_jam_keluar update_data) (db_jam_keluar db_setoran))
      (get (f_nomor_awal update_data) (db_nomor_awal db_setoran))
      (get (f_nomor_akhir update_data) (db_nomor_akhir db_setoran))
      (get (f_qris_setoran update_data) (db_qris_setoran db_setoran))
      (get (f_expenses update_data) stored_expenses)
      (get (f_income update_data) stored_income) in
  match parse_SetoranCreate kwargs with
  | None => None
  | Some current_data =>
      let calculation := calculate_setoran current_data in
      Some (mkRow (db_id db_setoran)
              (db_employee_name db_setoran) (db_jam_masuk db_setoran)
              (db_jam_keluar db_setoran)
              (db_nomor_awal db_setoran) (db_nomor_akhir db_setoran)
              (total_liter calculation) (total_setoran calculation)
              (db_qris_setoran db_setoran) (cash_setoran calculation)
              (if is_set (f_expenses update_data)
               then Some (json_dumps (expenses current_data))
               else expenses_data db_setoran)
              (total_expenses calculation)
              (if is_set (f_income update_data)
               then Some (json_dumps (income current_data))
               else income_data db_setoran)
              (total_income calculation)
              (total_keseluruhan calculation))
  end
  end
  end.

(** [setattr(db_setoran, field, value)] on a [nullable=False] column for a
    key of [update_data]; [None] is a [None] value, which the commit
    refuses. *)
Definition setattr {A} (f : field A) (old : A) : option A :=
  match f with
  | Unset => Some old
  | Null => None
  | Given v => Some v
  end.

(** The loop over [update_data.items()] followed by [db.commit()]: the six
    scalar columns take the patch's values; [None] is a refused commit. *)
Definition set_other_fields (update_data : Payload) (r : Setoran)
  : option Setoran :=
  match setattr (f_employee_name update_data) (db_employee_name r),
        setattr (f_jam_masuk update_data) (db_jam_masuk r),
        setattr (f_jam_keluar update_data) (db_jam_keluar r),
        setattr (f_nomor_awal update_data) (db_nomor_awal r),
        setattr (f_nomor_akhir update_data) (db_nomor_akhir r),
        setattr (f_qris_setoran update_data) (db_qris_setoran r) with
  | Some n, Some m, Some k, Some a, Some b, Some q =>
      Some (mkRow (db_id r) n m k a b
              (db_total_liter r) (db_total_setoran r) q (db_cash_setoran r)
              (expenses_data r) (db_total_expenses r)
              (income_data r) (db_total_income r) (db_total_keseluruhan r))
  | _, _, _, _, _, _ => None
  end.

(** The body of [update_setoran]. *)
Definition update_setoran (setoran_id : Z) (setoran_update : Payload)
  (db : Db) : result SetoranResponse * Db :=
  match query_first setoran_id db with
  | None => (Err NotFound, db)
  | Some db_setoran =>
      let update_data := setoran_update in
      let recomputed :=
        if touches_financial update_data
        then recompute update_data db_setoran
        else Some db_setoran in
      match recomputed with
      | None => (Err BadRequest, db)             (* rollback *)
      | Some r1 =>
          match set_other_fields update_data r1 with
          | None => (Err BadRequest, db)         (* rollback *)
          | Some r2 =>
              let db' := db_replace r2 db in     (* commit, refresh *)
              match loads_or_empty_array (expenses_data r2),
                    loads_or_empty_array (income_data r2) with
              | Some e, Some i => (to_response r2 (PyList e) (PyList i), db')
              | _, _ => (Err BadRequest, db')    (* rollback after commit *)
              end
          end
      end
  end.

(** [PUT /api/setoran/{setoran_id}]: the body is parsed, then the route
    runs. *)
Definition put_setoran (setoran_id : Z) (body : Payload) (db : Db)
  : result SetoranResponse * Db :=
  match parse_SetoranUpdate body with
  | Some setoran_update => update_setoran setoran_id setoran_update db
  | None => (Err Unprocessable, db)
  end.

End Routes.

(** ** The specification's side

    Definitions that follow the specification's words; the theorems compare
    them with the routes above. *)

(** A description is not blank: some character of it is no whitespace. *)
Definition has_text (s : string) : bool :=
  existsb (fun c => negb (isspace c)) (list_ascii_of_string s).



(** Two results of the engine agree on every field, as numbers. *)
Definition calc_eq (a b : SetoranCalculation) : Prop :=
  total_liter a == total_liter b /\
  total_setoran a == total_setoran b /\
  cash_setoran a == cash_setoran b /\
  total_expenses a == total_expenses b /\
  total_income a == total_income b /\
  total_keseluruhan a == total_keseluruhan b.

(** The six derived columns of a row. *)
Definition derived (r : Setoran) : SetoranCalculation :=
  mkCalc (db_total_liter r) (db_total_setoran r) (db_cash_setoran r)
         (db_total_expenses r) (db_total_income r) (db_total_keseluruhan r).

(** A patch names none of the five financial fields. *)
Definition non_financial (patch : Payload) : Prop :=
  f_nomor_awal patch = Unset /\ f_nomor_akhir patch = Unset /\
  f_qris_setoran patch = Unset /\
  f_expenses patch = Unset /\ f_income patch = Unset.

(** A patch field laid over a stored value: the patch's value where it has
    one, the stored value otherwise. *)
Definition overlay {A} (f : field A) (stored : A) : A :=
  match f with Given v => v | _ => stored end.

(** The row a patch without financial fields leaves: three columns laid
    over, the rest as stored. *)
Definition renamed_row (patch : Payload) (r : Setoran) : Setoran :=
  mkRow (db_id r)
        (overlay (f_employee_name patch) (db_employee_name r))
        (overlay (f_jam_masuk patch) (db_jam_masuk r))
        (overlay (f_jam_keluar patch) (db_jam_keluar r))
        (db_nomor_awal r) (db_nomor_akhir r)
        (db_total_liter r) (db_total_setoran r)
        (db_qris_setoran r) (db_cash_setoran r)
        (expenses_data r) (db_total_expenses r)
        (income_data r) (db_total_income r) (db_total_keseluruhan r).

(** A patch writes [null] into one of the three name and time columns. *)
Definition nulls_a_name (patch : Payload) : Prop :=
  f_employee_name patch = Null \/ f_jam_masuk patch = Null \/
  f_jam_keluar patch = Null.

Section Invariant.

Context {codec : JsonCodec}.

(** The item list a stored text stands for. *)
Definition decoded (column : option string) : list LineItem :=
  match column with
  | Some text => parse_expenses (PyStr text)
  | None => []
  end.

(** The input fields of a row, as the engine's argument. *)
Definition stored_input (r : Setoran) : SetoranCreate :=
  mkCreate (db_employee_name r) (db_jam_masuk r) (db_jam_keluar r)
           (db_nomor_awal r) (db_nomor_akhir r) (db_qris_setoran r)
           (decoded (expenses_data r)) (decoded (income_data r)).

(** The patch laid over the stored input fields of a row. *)
Definition merged_input (patch : Payload) (r : Setoran) : SetoranCreate :=
  mkCreate (overlay (f_employee_name patch) (db_employee_name r))
           (overlay (f_jam_masuk patch) (db_jam_masuk r))
           (overlay (f_jam_keluar patch) (db_jam_keluar r))
           (overlay (f_nomor_awal patch) (db_nomor_awal r))
           (overlay (f_nomor_akhir patch) (db_nomor_akhir r))
           (overlay (f_qris_setoran patch) (db_qris_setoran r))
           (overlay (f_expenses patch) (decoded (expenses_data r)))
           (overlay (f_income patch) (decoded (income_data r))).

(** The row a patch with a financial field leaves when it is accepted. *)
Definition recomputed_row (patch : Payload) (r : Setoran) : Setoran :=
  let current_data := merged_input patch r in
  let calculation := calculate_setoran current_data in
  mkRow (db_id r)
        (employee_name current_data) (jam_masuk current_data)
        (jam_keluar current_data)
        (nomor_awal current_data) (nomor_akhir current_data)
        (total_liter calculation) (total_setoran calculation)
        (qris_setoran current_data) (cash_setoran calculation)
        (if is_set (f_expenses patch)
         then Some (json_dumps (expenses current_data))
         else expenses_data r)
        (total_expenses calculation)
        (if is_set (f_income patch)
         then Some (json_dumps (income current_data))
         else income_data r)
        (total_income calculation)
        (total_keseluruhan calculation).

(** The keyword arguments of the [SetoranCreate] built by the update route,
    with the stored texts decoded. *)
Definition merged_kwargs (patch : Payload) (r : Setoran) : Payload :=
  mkPayload
    (get (f_employee_name patch) (db_employee_name r))
    (get (f_jam_masuk patch) (db_jam_masuk r))
    (get (f_jam_keluar patch) (db_jam_keluar r))
    (get (f_nomor_awal patch) (db_nomor_awal r))
    (get (f_nomor_akhir patch) (db_nomor_akhir r))
    (get (f_qris_setoran patch) (db_qris_setoran r))
    (get (f_expenses patch) (decoded (expenses_data r)))
    (get (f_income patch) (decoded (income_data r))).



End Invariant.

(** ** A concrete codec

    The routes are evaluated on concrete databases with this codec.  It
    writes an item list as a bracketed text: ["["], then for every item
    ["{"], the two strings (each character after a ["c"], closed by ["."])
    and the numerator and denominator of the amount in binary, then ["]"]. *)

Fixpoint enc_str (s : string) : string :=
  match s with
  | EmptyString => "."
  | String c s' => String "c" (String c (enc_str s'))
  end.

Fixpoint dec_str (s : string) : option (string * string) :=
  match s with
  | String "." rest => Some (EmptyString, rest)
  | String "c" (String c rest) =>
      match dec_str rest with
      | Some (t, r) => Some (String c t, r)
      | None => None
      end
  | _ => None
  end.

Fixpoint enc_pos (p : positive) : string :=
  match p with
  | xH => "."
  | xO p' => String "0" (enc_pos p')
  | xI p' => String "1" (enc_pos p')
  end.

Fixpoint dec_pos (s : string) : option (positive * string) :=
  match s with
  | String "." rest => Some (xH, rest)
  | String "0" rest =>
      match dec_pos rest with
      | Some (p, r) => Some (xO p, r)
      | None => None
      end
  | String "1" rest =>
      match dec_pos rest with
      | Some (p, r) => Some (xI p, r)
      | None => None
      end
  | _ => None
  end.

Definition enc_Z (z : Z) : string :=
  match z with
  | Z0 => "z"
  | Zpos p => String "+" (enc_pos p)
  | Zneg p => String "-" (enc_pos p)
  end.

Definition dec_Z (s : string) : option (Z * string) :=
  match s with
  | String "z" rest => Some (Z0, rest)
  | String "+" rest =>
      match dec_pos rest with
      | Some (p, r) => Some (Zpos p, r)
      | None => None
      end
  | String "-" rest =>
      match dec_pos rest with
      | Some (p, r) => Some (Zneg p, r)
      | None => None
      end
  | _ => None
  end.

Definition enc_item (it : LineItem) : string :=
  enc_str (item_id it) ++ enc_str (description it)
  ++ enc_Z (Qnum (amount it)) ++ enc_pos (Qden (amount it)).

Definition dec_item (s : string) : option (LineItem * string) :=
  match dec_str s with
  | None => None
  | Some (i, r1) =>
      match dec_str r1 with
      | None => None
      | Some (d, r2) =>
          match dec_Z r2 with
          | None => None
          | Some (n, r3) =>
              match dec_pos r3 with
              | None => None
              | Some (p, r4) => Some (mkItem i d (n # p), r4)
              end
          end
      end
  end.

Fixpoint enc_items (l : list LineItem) : string :=
  match l with
  | [] => "]"
  | it :: l' => String "{" (enc_item it ++ enc_items l')
  end.

Fixpoint dec_items (fuel : nat) (s : string) : option (list LineItem) :=
  match fuel with
  | O => None
  | S fuel' =>
      match s with
      | String "]" EmptyString => Some []
      | String "{" rest =>
          match dec_item rest with
          | None => None
          | Some (it, r) =>
              match dec_items fuel' r with
              | Some l => Some (it :: l)
              | None => None
              end
          end
      | _ => None
      end
  end.

Definition compact_dumps (l : list LineItem) : string :=
  String "[" (enc_items l).

Definition compact_loads (s : string) : option (list LineItem) :=
  match s with
  | String "[" rest => dec_items (String.length s) rest
  | _ => None
  end.

Lemma dec_enc_str (s rest : string) :
  dec_str (enc_str s ++ rest) = Some (s, rest).
Proof.
  induction s as [|c s IH]; simpl.
  - reflexivity.
  - rewrite IH. reflexivity.
Qed.

Lemma dec_enc_pos (p : positive) (rest : string) :
  dec_pos (enc_pos p ++ rest) = Some (p, rest).
Proof.
  induction p as [p IH|p IH|]; simpl; try rewrite IH; reflexivity.
Qed.

Lemma dec_enc_Z (z : Z) (rest : string) :
  dec_Z (enc_Z z ++ rest) = Some (z, rest).
Proof.
  destruct z; simpl; try rewrite dec_enc_pos; reflexivity.
Qed.

Lemma append_assoc (a b c : string) : (a ++ b) ++ c = a ++ (b ++ c).
Proof.
  induction a as [|x a IH]; simpl; [reflexivity | now rewrite IH].
Qed.

Lemma dec_enc_item (it : LineItem) (rest : string) :
  dec_item (enc_item it ++ rest) = Some (it, rest).
Proof.
  destruct it as [i d [n p]]. unfold enc_item, dec_item. simpl.
  rewrite !append_assoc.
  rewrite dec_enc_str, dec_enc_str, dec_enc_Z, dec_enc_pos.
  reflexivity.
Qed.

Lemma dec_enc_items (l : list LineItem) (fuel : nat) :
  (List.length l < fuel)%nat -> dec_items fuel (enc_items l) = Some l.
Proof.
  revert fuel. induction l as [|it l IH]; intros fuel Hf.
  - destruct fuel; [inversion Hf | reflexivity].
  - destruct fuel as [|fuel]; [inversion Hf|].
    simpl. rewrite dec_enc_item.
    rewrite IH by (simpl in Hf; lia). reflexivity.
Qed.

Lemma length_append (a b : string) :
  String.length (a ++ b) = (String.length a + String.length b)%nat.
Proof.
  induction a as [|x a IH]; simpl; [reflexivity | now rewrite IH].
Qed.

Lemma enc_items_long (l : list LineItem) :
  (List.length l < String.length (enc_items l))%nat.
Proof.
  induction l as [|it l IH]; simpl.
  - lia.
  - rewrite length_append. lia.
Qed.

Lemma compact_loads_dumps (l : list LineItem) :
  compact_loads (compact_dumps l) = Some l.
Proof.
  unfold compact_loads, compact_dumps.
  apply dec_enc_items. simpl. pose proof (enc_items_long l). lia.
Qed.

#[export] Instance compact_codec : JsonCodec := {|
  json_dumps := compact_dumps;
  json_loads := compact_loads;
  loads_dumps := compact_loads_dumps;
  dumps_truthy := fun _ => eq_refl;
  loads_empty_array := eq_refl
|}.

(** ** Concrete inputs *)


(** The scenario of the specification: gross sale 100000 against 150000
    paid by QRIS. *)
Definition overpaid : SetoranCreate :=
  mkCreate "Budi" "08:00" "16:00" 0 (100000 / 11500) 150000 [] [].

(** The first scenario of the specification's testable properties. *)
Definition scenario : SetoranCreate :=
  mkCreate "Budi" "08:00" "16:00" 1000 1050 200000
           [mkItem "1" "oil" 50000; mkItem "2" "" 30000] [].

(** A stored row as the create route writes it for a shift of 50 liters
    paid 200000 by QRIS, without items. *)
Definition stored_row : Setoran :=
  mkRow 1 "Budi" "08:00" "16:00" 1000 1050 50 575000 200000 375000
        (Some "[]") 0 (Some "[]") 0 375000.

(** A patch of the three name and time fields, none of them valid for
    [SetoranCreate]. *)
Definition name_patch : Payload :=
  mkPayload (Given "") (Given "25:99") (Given "soon")
            Unset Unset Unset Unset Unset.

(** The same patch with a QRIS amount added. *)
Definition name_qris_patch : Payload :=
  mkPayload (Given "") (Given "25:99") (Given "soon")
            Unset Unset (Given 100000) Unset Unset.

(** A patch that moves the end meter below the stored start meter. *)
Definition backwards_patch : Payload :=
  mkPayload Unset Unset Unset Unset (Given 900) Unset Unset Unset.

(** A patch of the QRIS amount alone. *)
Definition qris_patch : Payload :=
  mkPayload Unset Unset Unset Unset Unset (Given 100000) Unset Unset.

(** A row whose expense text is no JSON. *)
Definition corrupt_row : Setoran :=
  mkRow 1 "Budi" "08:00" "16:00" 1000 1050 50 575000 200000 375000
        (Some "{oops") 0 (Some "[]") 0 375000.

(** A valid shift: 50 liters, 200000 by QRIS, one expense. *)
Definition shift : SetoranCreate :=
  mkCreate "Budi" "08:00" "16:00" 1000 1050 200000
           [mkItem "1" "oil" 50000] [].

(** The database after the shift is created and its QRIS amount patched. *)
Definition patched_db : Db :=
  snd (update_setoran 1 qris_patch (snd (create_setoran shift []))).

(** * Theorems *)

(** ** Builtins *)

Lemma Qgtb_true (a b : Q) : Qgtb a b = true <-> b < a.
Proof.
  unfold Qgtb. rewrite (Qgt_alt a b).
  destruct (a ?= b); split; intro H; congruence.
Qed.

Lemma Qgtb_false (a b : Q) : Qgtb a b = false <-> a <= b.
Proof.
  unfold Qgtb. rewrite (Qle_alt a b).
  destruct (a ?= b); split; intro H; congruence.
Qed.

Lemma Qltb_true (a b : Q) : Qltb a b = true <-> a < b.
Proof.
  unfold Qltb. rewrite (Qlt_alt a b).
  destruct (a ?= b); split; intro H; congruence.
Qed.

Lemma Qltb_false (a b : Q) : Qltb a b = false <-> b <= a.
Proof.
  unfold Qltb. rewrite (Qge_alt a b).
  destruct (a ?= b); split; intro H; congruence.
Qed.

Lemma Qgeb_true (a b : Q) : Qgeb a b = true <-> b <= a.
Proof.
  unfold Qgeb. rewrite negb_true_iff. apply Qltb_false.
Qed.


Lemma py_max_ge_l (a b : Q) : a <= py_max a b.
Proof.
  unfold py_max. destruct (Qgtb b a) eqn:E.
  - apply Qgtb_true in E. lra.
  - lra.
Qed.

Lemma fold_left_Qplus (xs : list Q) (a : Q) :
  fold_left Qplus xs a == a + fold_right Qplus 0 xs.
Proof.
  revert a. induction xs as [|x xs IH]; intro a; simpl.
  - lra.
  - rewrite IH. lra.
Qed.

Lemma py_sum_fold_right (xs : list Q) : py_sum xs == fold_right Qplus 0 xs.
Proof.
  unfold py_sum. rewrite fold_left_Qplus. lra.
Qed.

(** ** The builtins on small inputs *)

Example strip_inner_space : strip "  oil filter  " = "oil filter".
Proof. reflexivity. Qed.

Example strip_blank : strip "   " = "".
Proof. reflexivity. Qed.

Example time_pattern_accepts :
  time_pattern "08:00" = true /\ time_pattern "8:05" = true /\
  time_pattern "23:59" = true.
Proof. repeat split. Qed.

Example time_pattern_refuses :
  time_pattern "24:00" = false /\ time_pattern "12:60" = false /\
  time_pattern "12:3" = false /\ time_pattern "" = false.
Proof. repeat split. Qed.

Example py_max_keeps_first : py_max 0 (-3) = 0 /\ py_max 0 (7 # 2) = 7 # 2.
Proof. split; reflexivity. Qed.

Example compact_codec_text :
  json_dumps [mkItem "1" "oil" 50000] <> "[]" /\
  json_loads (json_dumps [mkItem "1" "oil" 50000])
  = Some [mkItem "1" "oil" 50000] /\
  json_loads "{oops" = None.
Proof. repeat split. discriminate. Qed.

(** ** Blank descriptions *)

Lemma has_text_cons (c : ascii) (s : string) :
  has_text (String c s) = negb (isspace c) || has_text s.
Proof. reflexivity. Qed.

Lemma has_text_lstrip (s : string) : has_text (lstrip s) = has_text s.
Proof.
  induction s as [|c s IH]; simpl.
  - reflexivity.
  - destruct (isspace c) eqn:E.
    + rewrite IH, has_text_cons, E. reflexivity.
    + reflexivity.
Qed.

Lemma truthy_rstrip (s : string) : str_truthy (rstrip s) = has_text s.
Proof.
  induction s as [|c s IH].
  - reflexivity.
  - rewrite has_text_cons, <- IH. simpl.
    destruct (rstrip s); simpl.
    + destruct (isspace c); reflexivity.
    + now rewrite orb_true_r.
Qed.

Lemma truthy_strip (s : string) : str_truthy (strip s) = has_text s.
Proof.
  unfold strip. now rewrite truthy_rstrip, has_text_lstrip.
Qed.




(** ** Totals *)


Lemma total_of_cons (it : LineItem) (l : list LineItem) :
  total_of (it :: l) ==
  (if counted it then amount it else 0) + total_of l.
Proof.
  unfold total_of. rewrite !py_sum_fold_right. simpl.
  destruct (counted it); simpl; lra.
Qed.



Lemma total_of_perm (a b : list LineItem) :
  Permutation a b -> total_of a == total_of b.
Proof.
  induction 1 as [|x l l' _ IH|x y l|l l' l'' _ IH1 _ IH2].
  - reflexivity.
  - rewrite !total_of_cons, IH. reflexivity.
  - rewrite !total_of_cons. lra.
  - now rewrite IH1.
Qed.

(** ** The engine *)


(** C5: for every input, valid or not, liters and cash portion are never
    negative; liters are [end - start] when [end >= start]; the cash portion
    is [gross - qris] when [qris <= gross] and exactly 0 when
    [qris > gross]. *)
Theorem floors_of_calculate_setoran (data : SetoranCreate) :
  let r := calculate_setoran data in
  0 <= total_liter r /\
  0 <= cash_setoran r /\
  (nomor_awal data <= nomor_akhir data ->
   total_liter r == nomor_akhir data - nomor_awal data) /\
  (qris_setoran data <= total_setoran r ->
   cash_setoran r == total_setoran r - qris_setoran data) /\
  (total_setoran r < qris_setoran data -> cash_setoran r = 0).
Proof.
  cbv zeta. unfold calculate_setoran; simpl.
  set (liter := py_max 0 (nomor_akhir data - nomor_awal data)).
  repeat split.
  - apply py_max_ge_l.
  - apply py_max_ge_l.
  - intro H. unfold liter, py_max.
    destruct (Qgtb _ 0) eqn:E; [reflexivity|].
    apply Qgtb_false in E. lra.
  - intro H. unfold py_max.
    destruct (Qgtb _ 0) eqn:E; [reflexivity|].
    apply Qgtb_false in E. lra.
  - intro H. unfold py_max.
    destruct (Qgtb _ 0) eqn:E; [|reflexivity].
    apply Qgtb_true in E. lra.
Qed.

Lemma floors_of_calculate_setoran_witness :
  total_setoran (calculate_setoran overpaid) == 100000 /\
  cash_setoran (calculate_setoran overpaid) = 0.
Proof.
  split.
  - vm_compute. reflexivity.
  - apply (floors_of_calculate_setoran overpaid). vm_compute. reflexivity.
Defined.



(** The first scenario of the specification. *)
Example scenario_totals :
  calc_eq (calculate_setoran scenario)
          (mkCalc 50 575000 375000 50000 0 325000).
Proof. vm_compute. tauto. Qed.

(** ** Payload fields *)

Lemma get_Given {A} (f : field A) (stored v : A) :
  get f stored = Given v -> overlay f stored = v /\ setattr f stored = Some v.
Proof.
  destruct f; simpl; intro H; inversion H; split; reflexivity.
Qed.

Lemma required_str_Given ok f s :
  required_str ok f = Some s -> f = Given s /\ ok s = true.
Proof.
  destruct f as [| |x]; simpl; try discriminate.
  destruct (ok x) eqn:E; [|discriminate].
  intro H; inversion H; subst. split; [reflexivity | exact E].
Qed.

Lemma required_ge0_Given f q :
  required_ge0 f = Some q -> f = Given q /\ 0 <= q.
Proof.
  destruct f as [| |x]; simpl; try discriminate.
  destruct (Qgeb x 0) eqn:E; [|discriminate].
  intro H; inversion H; subst. split; [reflexivity | now apply Qgeb_true].
Qed.

Lemma default_ge0_get f stored q :
  default_ge0 0 (get f stored) = Some q ->
  overlay f stored = q /\ setattr f stored = Some q.
Proof.
  destruct f as [| |x]; simpl; try discriminate.
  - destruct (Qgeb stored 0); [|discriminate].
    intro H; inversion H; split; reflexivity.
  - destruct (Qgeb x 0); [|discriminate].
    intro H; inversion H; split; reflexivity.
Qed.

Lemma list_field_get f stored l :
  list_field (get f stored) = Some l ->
  overlay f stored = l /\ forallb item_ok l = true.
Proof.
  destruct f as [| |x]; simpl; try discriminate.
  - destruct (forallb item_ok stored) eqn:E; simpl; [|discriminate].
    destruct (validate_items stored); [|discriminate].
    intro H; inversion H; subst. split; [reflexivity | exact E].
  - destruct (forallb item_ok x) eqn:E; simpl; [|discriminate].
    destruct (validate_items x); [|discriminate].
    intro H; inversion H; subst. split; [reflexivity | exact E].
Qed.

(** What a successful construction of [SetoranCreate] says of its
    arguments. *)
Lemma parse_SetoranCreate_Some (p : Payload) (d : SetoranCreate) :
  parse_SetoranCreate p = Some d ->
  required_str (fun s => (1 <=? String.length s)%nat) (f_employee_name p)
  = Some (employee_name d) /\
  required_str time_pattern (f_jam_masuk p) = Some (jam_masuk d) /\
  required_str time_pattern (f_jam_keluar p) = Some (jam_keluar d) /\
  required_ge0 (f_nomor_awal p) = Some (nomor_awal d) /\
  required_ge0 (f_nomor_akhir p) = Some (nomor_akhir d) /\
  nomor_awal d <= nomor_akhir d /\
  default_ge0 0 (f_qris_setoran p) = Some (qris_setoran d) /\
  list_field (f_expenses p) = Some (expenses d) /\
  list_field (f_income p) = Some (income d).
Proof.
  unfold parse_SetoranCreate.
  destruct (required_str _ (f_employee_name p)) as [n|]; [|discriminate].
  destruct (required_str _ (f_jam_masuk p)) as [m|]; [|discriminate].
  destruct (required_str _ (f_jam_keluar p)) as [k|]; [|discriminate].
  destruct (required_ge0 (f_nomor_awal p)) as [a|]; [|discriminate].
  destruct (required_ge0 (f_nomor_akhir p)) as [b|]; [|discriminate].
  unfold validate_nomor_akhir.
  destruct (Qltb b a) eqn:E; [discriminate|].
  destruct (default_ge0 0 (f_qris_setoran p)) as [q|]; [|discriminate].
  destruct (list_field (f_expenses p)) as [e|]; [|discriminate].
  destruct (list_field (f_income p)) as [i|]; [|discriminate].
  intro H; inversion H; subst; simpl.
  apply Qltb_false in E. repeat split; try reflexivity. exact E.
Qed.


(** ** Rows of the table *)

Lemma query_first_Some (setoran_id : Z) (db : Db) (r : Setoran) :
  query_first setoran_id db = Some r -> In r db /\ db_id r = setoran_id.
Proof.
  unfold query_first. intro H. apply find_some in H.
  destruct H as [Hin Hid]. split; [exact Hin | now apply Z.eqb_eq].
Qed.

Lemma query_first_replace (setoran_id : Z) (db : Db) (r r' : Setoran) :
  query_first setoran_id db = Some r -> db_id r' = setoran_id ->
  query_first setoran_id (db_replace r' db) = Some r'.
Proof.
  unfold query_first, db_replace. intros H Hid. subst setoran_id.
  induction db as [|x db IH]; simpl in *; [discriminate|].
  destruct (db_id x =? db_id r')%Z eqn:E.
  - now rewrite Z.eqb_refl.
  - rewrite E. apply IH. exact H.
Qed.

Lemma query_first_replace_other (i j : Z) (db : Db) (r' : Setoran) :
  db_id r' = j -> i <> j ->
  query_first i (db_replace r' db) = query_first i db.
Proof.
  unfold query_first, db_replace. intros Hid Hne. subst j.
  induction db as [|x db IH]; simpl; [reflexivity|].
  destruct (db_id x =? db_id r')%Z eqn:E.
  - apply Z.eqb_eq in E.
    destruct (db_id r' =? i)%Z eqn:F; [apply Z.eqb_eq in F; congruence|].
    rewrite E, F. exact IH.
  - destruct (db_id x =? i)%Z; [reflexivity | exact IH].
Qed.

Lemma Forall_db_replace (P : Setoran -> Prop) (r : Setoran) (db : Db) :
  P r -> Forall P db -> Forall P (db_replace r db).
Proof.
  intros Hr H. unfold db_replace. apply Forall_forall.
  intros x Hx. apply in_map_iff in Hx. destruct Hx as [y [Hy Hin]].
  destruct (db_id y =? db_id r)%Z; subst; [exact Hr|].
  rewrite Forall_forall in H. now apply H.
Qed.

(** ** The update route *)

Section UpdateFacts.

Context {codec : JsonCodec}.

Lemma loads_if_truthy_decoded (column : option string) (l : list LineItem) :
  loads_if_truthy column = Some l -> decoded column = l.
Proof.
  destruct column as [text|]; simpl.
  - destruct (str_truthy text).
    + intros ->. reflexivity.
    + intro H. now inversion H.
  - intro H. now inversion H.
Qed.

Lemma loads_or_empty_array_Some (column : option string) (l : list LineItem) :
  loads_if_truthy column = Some l -> loads_or_empty_array column = Some l.
Proof.
  destruct column as [text|]; simpl.
  - destruct (str_truthy text); [tauto|].
    intro H. rewrite loads_empty_array. exact H.
  - intro H. rewrite loads_empty_array. exact H.
Qed.

Lemma loads_if_truthy_dumps (l : list LineItem) :
  loads_if_truthy (Some (json_dumps l)) = Some l.
Proof.
  simpl. rewrite dumps_truthy. apply loads_dumps.
Qed.

Lemma loads_if_truthy_dumps_if_truthy (l : list LineItem) :
  loads_if_truthy (Some (dumps_if_truthy l)) = Some l.
Proof.
  destruct l as [|x l].
  - simpl. apply loads_empty_array.
  - apply loads_if_truthy_dumps.
Qed.

(** The recomputation block either raises, or the merged input is valid and
    the row it builds, once the scalar columns are set, is
    [recomputed_row]. *)
Lemma recompute_Some (patch : Payload) (row r1 : Setoran) :
  recompute patch row = Some r1 ->
  parse_SetoranCreate (merged_kwargs patch row)
  = Some (merged_input patch row) /\
  set_other_fields patch r1 = Some (recomputed_row patch row) /\
  loads_if_truthy (expenses_data (recomputed_row patch row))
  = Some (expenses (merged_input patch row)) /\
  loads_if_truthy (income_data (recomputed_row patch row))
  = Some (income (merged_input patch row)) /\
  forallb item_ok (expenses (merged_input patch row)) = true /\
  forallb item_ok (income (merged_input patch row)) = true.
Proof.
  unfold recompute.
  destruct (loads_if_truthy (expenses_data row)) as [se|] eqn:Le;
    [|discriminate].
  destruct (loads_if_truthy (income_data row)) as [si|] eqn:Li;
    [|discriminate].
  pose proof (loads_if_truthy_decoded _ _ Le) as De.
  pose proof (loads_if_truthy_decoded _ _ Li) as Di.
  unfold merged_kwargs. rewrite De, Di.
  destruct (parse_SetoranCreate _) as [cd|] eqn:P; [|discriminate].
  intro H; inversion H; subst r1; clear H.
  apply parse_SetoranCreate_Some in P. simpl in P.
  destruct P as (Pn & Pm & Pk & Pa & Pb & _ & Pq & Pe & Pi).
  apply required_str_Given in Pn, Pm, Pk.
  destruct Pn as [Pn _], Pm as [Pm _], Pk as [Pk _].
  apply get_Given in Pn, Pm, Pk.
  apply required_ge0_Given in Pa, Pb.
  destruct Pa as [Pa _], Pb as [Pb _].
  apply get_Given in Pa, Pb.
  apply default_ge0_get in Pq. apply list_field_get in Pe, Pi.
  destruct Pn as [On Sn], Pm as [Om Sm], Pk as [Ok' Sk], Pa as [Oa Sa],
           Pb as [Ob Sb], Pq as [Oq Sq], Pe as [Oe Ve], Pi as [Oi Vi].
  assert (Hcd : cd = merged_input patch row).
  { unfold merged_input. rewrite De, Di, On, Om, Ok', Oa, Ob, Oq, Oe, Oi.
    destruct cd; reflexivity. }
  subst cd. split; [reflexivity|]. split.
  - unfold set_other_fields. simpl. rewrite Sn, Sm, Sk, Sa, Sb, Sq.
    unfold recomputed_row. cbv zeta. reflexivity.
  - unfold recomputed_row. cbv zeta.
    cbn [expenses_data income_data].
    repeat split; try assumption.
    + destruct (is_set (f_expenses patch)) eqn:S.
      * apply loads_if_truthy_dumps.
      * destruct (f_expenses patch) eqn:F; try discriminate S.
        unfold merged_input; cbn [expenses]. rewrite F, De. exact Le.
    + destruct (is_set (f_income patch)) eqn:S.
      * apply loads_if_truthy_dumps.
      * destruct (f_income patch) eqn:F; try discriminate S.
        unfold merged_input; cbn [income]. rewrite F, Di. exact Li.
Qed.

Lemma recompute_None (patch : Payload) (row : Setoran) :
  parse_SetoranCreate (merged_kwargs patch row) = None ->
  recompute patch row = None.
Proof.
  intro P. unfold recompute.
  destruct (loads_if_truthy (expenses_data row)) as [se|] eqn:Le;
    [|reflexivity].
  destruct (loads_if_truthy (income_data row)) as [si|] eqn:Li;
    [|reflexivity].
  apply loads_if_truthy_decoded in Le, Li.
  unfold merged_kwargs in P. rewrite Le, Li in P. now rewrite P.
Qed.

Lemma non_financial_touches (patch : Payload) :
  non_financial patch <-> touches_financial patch = false.
Proof.
  unfold non_financial, touches_financial. split.
  - intros (-> & -> & -> & -> & ->). reflexivity.
  - destruct (f_nomor_awal patch), (f_nomor_akhir patch),
      (f_qris_setoran patch), (f_expenses patch), (f_income patch);
      simpl; intro H; try discriminate H; tauto.
Qed.

(** How the update route ends on a patch with a financial field: the
    recomputation raises and nothing is written, or the recomputed row is
    committed and returned. *)
Lemma update_setoran_financial (setoran_id : Z) (patch : Payload) (db : Db)
  (row : Setoran) :
  query_first setoran_id db = Some row ->
  touches_financial patch = true ->
  (recompute patch row = None /\
   update_setoran setoran_id patch db = (Err BadRequest, db)) \/
  (parse_SetoranCreate (merged_kwargs patch row)
   = Some (merged_input patch row) /\
   stored_input (recomputed_row patch row) = merged_input patch row /\
   exists resp,
     to_response (recomputed_row patch row)
       (PyList (expenses (merged_input patch row)))
       (PyList (income (merged_input patch row))) = Ok resp /\
     update_setoran setoran_id patch db
     = (Ok resp, db_replace (recomputed_row patch row) db)).
Proof.
  intros Hq Ht. unfold update_setoran. rewrite Hq, Ht.
  destruct (recompute patch row) as [r1|] eqn:R.
  - right. apply recompute_Some in R.
    destruct R as (P & S & Le & Li & Ve & Vi).
    split; [exact P|]. split.
    { unfold stored_input.
      rewrite (loads_if_truthy_decoded _ _ Le).
      rewrite (loads_if_truthy_decoded _ _ Li). reflexivity. }
    rewrite S.
    rewrite (loads_or_empty_array_Some _ _ Le).
    rewrite (loads_or_empty_array_Some _ _ Li).
    unfold to_response. cbn [parse_expenses]. rewrite Ve, Vi.
    eexists. split; reflexivity.
  - left. split; reflexivity.
Qed.

Lemma set_other_fields_non_financial (patch : Payload) (row : Setoran) :
  non_financial patch ->
  (nulls_a_name patch /\ set_other_fields patch row = None) \/
  (~ nulls_a_name patch /\
   set_other_fields patch row = Some (renamed_row patch row)).
Proof.
  intros (Ha & Hb & Hq & _ & _).
  unfold set_other_fields, nulls_a_name, renamed_row.
  rewrite Ha, Hb, Hq.
  destruct (f_employee_name patch), (f_jam_masuk patch),
    (f_jam_keluar patch); simpl;
    try (left; split; [tauto | reflexivity]);
    right; (split; [intros [H|[H|H]]; discriminate H | reflexivity]).
Qed.

(** How the update route ends on a patch without financial fields: a
    [null] name or time is refused by the commit, anything else is
    committed as it is. *)
Lemma update_setoran_non_financial (setoran_id : Z) (patch : Payload)
  (db : Db) (row : Setoran) :
  query_first setoran_id db = Some row ->
  non_financial patch ->
  (nulls_a_name patch /\
   update_setoran setoran_id patch db = (Err BadRequest, db)) \/
  (~ nulls_a_name patch /\
   snd (update_setoran setoran_id patch db)
   = db_replace (renamed_row patch row) db /\
   forall e i,
     loads_if_truthy (expenses_data row) = Some e ->
     loads_if_truthy (income_data row) = Some i ->
     fst (update_setoran setoran_id patch db)
     = to_response (renamed_row patch row) (PyList e) (PyList i)).
Proof.
  intros Hq Hn. unfold update_setoran. rewrite Hq.
  rewrite (proj1 (non_financial_touches patch) Hn).
  destruct (set_other_fields_non_financial patch row Hn) as [[N S]|[N S]];
    rewrite S.
  - left. split; [exact N | reflexivity].
  - right. split; [exact N|]. split.
    + destruct (loads_or_empty_array (expenses_data _));
        [destruct (loads_or_empty_array (income_data _))|]; reflexivity.
    + intros e i Le Li. cbn [renamed_row expenses_data income_data].
      rewrite (loads_or_empty_array_Some _ _ Le).
      rewrite (loads_or_empty_array_Some _ _ Li). reflexivity.
Qed.

End UpdateFacts.

(** ** The stored totals *)

Section StoredTotals.

Context {codec : JsonCodec}.






End StoredTotals.

(** ** Patches and rejected requests *)

Section Patches.

Context {codec : JsonCodec}.

Lemma put_setoran_non_financial (setoran_id : Z) (patch : Payload) (db : Db) :
  non_financial patch ->
  put_setoran setoran_id patch db = update_setoran setoran_id patch db.
Proof.
  intros (_ & _ & _ & He & Hi). unfold put_setoran, parse_SetoranUpdate.
  rewrite He, Hi. reflexivity.
Qed.

(** C6: a patch that names none of the five financial fields leaves the
    six derived columns of the row exactly as they were, together with its
    five input columns and its key; the row is either untouched (the commit
    refused a [null]) or differs in the three name and time columns only;
    every other row is as before. *)
Theorem non_financial_patch_frame (setoran_id : Z) (patch : Payload)
  (db : Db) (row : Setoran) :
  query_first setoran_id db = Some row ->
  non_financial patch ->
  let db' := snd (put_setoran setoran_id patch db) in
  exists row',
    query_first setoran_id db' = Some row' /\
    derived row' = derived row /\
    db_id row' = db_id row /\
    db_nomor_awal row' = db_nomor_awal row /\
    db_nomor_akhir row' = db_nomor_akhir row /\
    db_qris_setoran row' = db_qris_setoran row /\
    expenses_data row' = expenses_data row /\
    income_data row' = income_data row /\
    (nulls_a_name patch -> row' = row) /\
    (~ nulls_a_name patch -> row' = renamed_row patch row) /\
    forall other, other <> setoran_id ->
                  query_first other db' = query_first other db.
Proof.
  intros Hq Hn. cbv zeta. rewrite (put_setoran_non_financial _ _ _ Hn).
  destruct (update_setoran_non_financial _ _ _ _ Hq Hn)
    as [[N ->]|(N & -> & _)].
  - exists row. simpl. repeat split; try reflexivity; tauto.
  - exists (renamed_row patch row).
    pose proof (query_first_Some _ _ _ Hq) as [_ Hid].
    split; [now apply (query_first_replace _ _ row)|].
    repeat split; try reflexivity; try tauto.
    intros other Hne. now apply query_first_replace_other with setoran_id.
Qed.

Lemma parse_rejects_range (p : Payload) (a b : Q) :
  f_nomor_awal p = Given a -> f_nomor_akhir p = Given b -> b < a ->
  parse_SetoranCreate p = None.
Proof.
  intros Ha Hb Hlt.
  destruct (parse_SetoranCreate p) as [d|] eqn:P; [|reflexivity].
  apply parse_SetoranCreate_Some in P.
  destruct P as (_ & _ & _ & Pa & Pb & Hle & _).
  apply required_ge0_Given in Pa, Pb.
  destruct Pa as [Pa _], Pb as [Pb _].
  rewrite Ha in Pa. rewrite Hb in Pb.
  inversion Pa; inversion Pb; subst. lra.
Qed.

Lemma validate_items_In (l : list LineItem) (it : LineItem) :
  validate_items l = true -> In it l ->
  has_text (description it) = true /\ 0 <= amount it.
Proof.
  induction l as [|x l IH]; simpl; [tauto|].
  rewrite truthy_strip.
  destruct (has_text (description x)) eqn:T; simpl; [|discriminate].
  destruct (Qltb (amount x) 0) eqn:L; [discriminate|].
  apply Qltb_false in L.
  intros Hv [->|Hin]; [split; assumption | now apply IH].
Qed.

Lemma list_field_rejects (l : list LineItem) (it : LineItem) :
  In it l ->
  has_text (description it) = false \/ amount it < 0 ->
  list_field (Given l) = None.
Proof.
  intros Hin Hbad. simpl.
  destruct (forallb item_ok l); simpl; [|reflexivity].
  destruct (validate_items l) eqn:V; [|reflexivity].
  destruct (validate_items_In _ _ V Hin) as [T A].
  destruct Hbad as [H|H]; [congruence | lra].
Qed.

Lemma parse_rejects_item (p : Payload) (l : list LineItem) (it : LineItem) :
  f_expenses p = Given l \/ f_income p = Given l ->
  In it l ->
  has_text (description it) = false \/ amount it < 0 ->
  parse_SetoranCreate p = None.
Proof.
  intros Hf Hin Hbad.
  pose proof (list_field_rejects _ _ Hin Hbad) as R.
  destruct (parse_SetoranCreate p) as [d|] eqn:P; [|reflexivity].
  apply parse_SetoranCreate_Some in P.
  destruct P as (_ & _ & _ & _ & _ & _ & _ & Pe & Pi).
  destruct Hf as [H|H]; rewrite H in *; congruence.
Qed.

(** A patch with a financial field whose merged input fails validation is
    answered with an error and writes nothing. *)
Lemma put_setoran_rejected (setoran_id : Z) (patch : Payload) (db : Db)
  (row : Setoran) :
  query_first setoran_id db = Some row ->
  touches_financial patch = true ->
  parse_SetoranCreate (merged_kwargs patch row) = None ->
  exists e, put_setoran setoran_id patch db = (Err e, db).
Proof.
  intros Hq Ht P. unfold put_setoran.
  destruct (parse_SetoranUpdate patch) as [u|] eqn:U.
  - unfold parse_SetoranUpdate in U.
    destruct (_ && _); [|discriminate]. inversion U; subst u.
    destruct (update_setoran_financial _ _ _ _ Hq Ht)
      as [[_ ->]|(P' & _)].
    + now exists BadRequest.
    + congruence.
  - now exists Unprocessable.
Qed.

(** C7: a request whose recomputation fails validation writes nothing and
    is answered with an error.  For a create that is every body
    [SetoranCreate] refuses; for an update, every patch with a financial
    field whose merged input [SetoranCreate] refuses, in particular a merged
    [nomor_akhir] below the merged [nomor_awal], and a patch item with a
    blank description or a negative amount. *)
Theorem rejected_requests_write_nothing (db : Db) :
  (forall body,
      parse_SetoranCreate body = None ->
      post_setoran body db = (Err Unprocessable, db)) /\
  (forall body a b,
      f_nomor_awal body = Given a -> f_nomor_akhir body = Given b ->
      b < a -> post_setoran body db = (Err Unprocessable, db)) /\
  (forall body l it,
      f_expenses body = Given l \/ f_income body = Given l -> In it l ->
      has_text (description it) = false \/ amount it < 0 ->
      post_setoran body db = (Err Unprocessable, db)) /\
  (forall setoran_id patch row,
      query_first setoran_id db = Some row ->
      touches_financial patch = true ->
      parse_SetoranCreate (merged_kwargs patch row) = None ->
      exists e, put_setoran setoran_id patch db = (Err e, db)) /\
  (forall setoran_id patch row,
      query_first setoran_id db = Some row ->
      touches_financial patch = true ->
      nomor_akhir (merged_input patch row)
      < nomor_awal (merged_input patch row) ->
      exists e, put_setoran setoran_id patch db = (Err e, db)) /\
  (forall setoran_id patch row l it,
      query_first setoran_id db = Some row ->
      f_expenses patch = Given l \/ f_income patch = Given l -> In it l ->
      has_text (description it) = false \/ amount it < 0 ->
      exists e, put_setoran setoran_id patch db = (Err e, db)).
Proof.
  assert (Hpost : forall body, parse_SetoranCreate body = None ->
                    post_setoran body db = (Err Unprocessable, db)).
  { intros body P. unfold post_setoran. now rewrite P. }
  split; [exact Hpost|]. split; [|split; [|split; [|split]]].
  - intros body a b Ha Hb Hlt. apply Hpost.
    now apply parse_rejects_range with a b.
  - intros body l it Hf Hin Hbad. apply Hpost.
    now apply parse_rejects_item with l it.
  - intros. now apply put_setoran_rejected with row.
  - intros setoran_id patch row Hq Ht Hlt.
    apply put_setoran_rejected with row; try assumption.
    destruct (parse_SetoranCreate (merged_kwargs patch row)) as [d|] eqn:P;
      [|reflexivity].
    apply parse_SetoranCreate_Some in P. simpl in P.
    destruct P as (_ & _ & _ & Pa & Pb & Hle & _).
    apply required_ge0_Given in Pa, Pb.
    destruct Pa as [Pa _], Pb as [Pb _].
    apply get_Given in Pa, Pb. destruct Pa as [Oa _], Pb as [Ob _].
    unfold merged_input in Hlt; simpl in Hlt. rewrite Oa, Ob in Hlt. lra.
  - intros setoran_id patch row l it Hq Hf Hin Hbad.
    apply put_setoran_rejected with row; try assumption.
    + unfold touches_financial.
      destruct Hf as [H|H]; rewrite H; simpl;
        now rewrite ?orb_true_r.
    + apply parse_rejects_item with l it; try assumption.
      unfold merged_kwargs; simpl.
      destruct Hf as [H|H]; rewrite H; [left | right]; reflexivity.
Qed.

End Patches.

Section Names.

Context {codec : JsonCodec}.

Lemma read_row_Ok (row : Setoran) (r0 : SetoranResponse) :
  read_row row = Ok r0 ->
  exists e i,
    loads_if_truthy (expenses_data row) = Some e /\
    loads_if_truthy (income_data row) = Some i /\
    forallb item_ok e && forallb item_ok i = true.
Proof.
  unfold read_row.
  destruct (loads_if_truthy (expenses_data row)) as [e|]; [|discriminate].
  destruct (loads_if_truthy (income_data row)) as [i|]; [|discriminate].
  unfold to_response. cbn [parse_expenses].
  destruct (forallb item_ok e && forallb item_ok i) eqn:V; [|discriminate].
  intros _. now exists e, i.
Qed.

(** C9: the update route validates no name or time on its own.  A patch
    without financial fields (and without [null]) is committed with its
    [employee_name], [jam_masuk] and [jam_keluar] exactly as given, and is
    answered with the changed record whenever the row was readable, whatever
    the three strings are.  A patch that has a financial field as well goes
    through [SetoranCreate] with all merged fields: when the merged name is
    empty or a merged time is outside the pattern, whether it comes from
    the patch or from the row, the patch is answered with an error and
    nothing is written. *)
Theorem patch_names_unvalidated (setoran_id : Z) (patch : Payload)
  (db : Db) (row : Setoran) :
  query_first setoran_id db = Some row ->
  (non_financial patch -> ~ nulls_a_name patch ->
   exists row',
     query_first setoran_id (snd (put_setoran setoran_id patch db))
     = Some row' /\
     db_employee_name row'
     = overlay (f_employee_name patch) (db_employee_name row) /\
     db_jam_masuk row' = overlay (f_jam_masuk patch) (db_jam_masuk row) /\
     db_jam_keluar row' = overlay (f_jam_keluar patch) (db_jam_keluar row) /\
     forall r0, read_row row = Ok r0 ->
       exists resp,
         fst (put_setoran setoran_id patch db) = Ok resp /\
         r_employee_name resp = db_employee_name row' /\
         r_jam_masuk resp = db_jam_masuk row' /\
         r_jam_keluar resp = db_jam_keluar row') /\
  (touches_financial patch = true ->
   String.length (employee_name (merged_input patch row)) = 0%nat \/
   time_pattern (jam_masuk (merged_input patch row)) = false \/
   time_pattern (jam_keluar (merged_input patch row)) = false ->
   exists e, put_setoran setoran_id patch db = (Err e, db)).
Proof.
  intro Hq. split.
  - intros Hn Hnull. rewrite (put_setoran_non_financial _ _ _ Hn).
    destruct (update_setoran_non_financial _ _ _ _ Hq Hn)
      as [[N _]|(_ & Hs & Hf)]; [contradiction|].
    rewrite Hs. exists (renamed_row patch row).
    pose proof (query_first_Some _ _ _ Hq) as [_ Hid].
    split; [now apply (query_first_replace _ _ row)|].
    repeat split.
    intros r0 Hr. apply read_row_Ok in Hr.
    destruct Hr as (e & i & Le & Li & V).
    rewrite (Hf e i Le Li). unfold to_response. cbn [parse_expenses].
    rewrite V. eexists. repeat split.
  - intros Ht Hbad. apply put_setoran_rejected with row; try assumption.
    destruct (parse_SetoranCreate (merged_kwargs patch row)) as [d|] eqn:P;
      [|reflexivity].
    exfalso. apply parse_SetoranCreate_Some in P.
    destruct P as (Pn & Pm & Pk & _).
    apply required_str_Given in Pn, Pm, Pk.
    destruct Pn as [Pn Vn], Pm as [Pm Vm], Pk as [Pk Vk].
    apply get_Given in Pn, Pm, Pk.
    destruct Pn as [On _], Pm as [Om _], Pk as [Ok' _].
    unfold merged_input in Hbad; cbn [employee_name jam_masuk jam_keluar]
      in Hbad.
    rewrite On, Om, Ok' in Hbad.
    destruct Hbad as [H|[H|H]].
    + rewrite H in Vn. discriminate Vn.
    + congruence.
    + congruence.
Qed.

(** C10: a create or preview body that leaves out [qris_setoran],
    [expenses] and [income] is accepted when its five required fields are
    valid; the three fields are 0 and two empty lists, the totals are the
    engine's on that input (both sums 0, the cash portion the whole gross
    sale), and the body is treated as the one that gives the three values
    explicitly. *)
Theorem omitted_fields_default (n m k : string) (a b : Q) (db : Db) :
  (1 <= String.length n)%nat ->
  time_pattern m = true -> time_pattern k = true ->
  0 <= a -> a <= b ->
  let omitted :=
    mkPayload (Given n) (Given m) (Given k) (Given a) (Given b)
              Unset Unset Unset in
  let explicit :=
    mkPayload (Given n) (Given m) (Given k) (Given a) (Given b)
              (Given 0) (Given []) (Given []) in
  let data := mkCreate n m k a b 0 [] [] in
  parse_SetoranCreate omitted = Some data /\
  parse_SetoranCreate explicit = Some data /\
  post_calculate omitted = Ok (calculate_setoran data) /\
  post_setoran omitted db = create_setoran data db /\
  post_setoran omitted db = post_setoran explicit db /\
  total_expenses (calculate_setoran data) = 0 /\
  total_income (calculate_setoran data) = 0 /\
  cash_setoran (calculate_setoran data)
  == total_setoran (calculate_setoran data).
Proof.
  intros Hn Hm Hk Ha Hab. cbv zeta.
  assert (P : forall q e i,
             default_ge0 0 q = Some 0 ->
             list_field e = Some [] -> list_field i = Some [] ->
             parse_SetoranCreate
               (mkPayload (Given n) (Given m) (Given k) (Given a) (Given b)
                          q e i)
             = Some (mkCreate n m k a b 0 [] [])).
  { intros q e i Hq He Hi. unfold parse_SetoranCreate.
    cbn [f_employee_name f_jam_masuk f_jam_keluar f_nomor_awal
         f_nomor_akhir f_qris_setoran f_expenses f_income
         required_str required_ge0].
    apply Nat.leb_le in Hn. rewrite Hn, Hm, Hk.
    assert (Ga : Qgeb a 0 = true) by (apply Qgeb_true; exact Ha).
    assert (Gb : Qgeb b 0 = true) by (apply Qgeb_true; lra).
    assert (Lb : Qltb b a = false) by (apply Qltb_false; exact Hab).
    rewrite Ga, Gb. cbn [validate_nomor_akhir].
    rewrite Lb, Hq, He, Hi. reflexivity. }
  assert (Po := P Unset Unset Unset eq_refl eq_refl eq_refl).
  assert (Pe := P (Given 0) (Given []) (Given []) eq_refl eq_refl eq_refl).
  split; [exact Po|]. split; [exact Pe|].
  unfold post_calculate, post_setoran. rewrite Po, Pe.
  repeat split.
  unfold calculate_setoran; simpl.
  set (gross := py_max 0 (b - a) * UNIT_PRICE).
  assert (0 <= gross).
  { unfold gross, UNIT_PRICE.
    pose proof (py_max_ge_l 0 (b - a)). nra. }
  unfold py_max. destruct (Qgtb (gross - 0) 0) eqn:E.
  - lra.
  - apply Qgtb_false in E. lra.
Qed.

(** C3 (as the routes are written): a stored text that is not empty and
    that [json.loads] refuses is turned into an empty list by the response
    schema's own validator, but the routes never hand it the text: they
    decode it themselves, outside any handler, so reading the row fails, by
    key and in a list, and an update of the row is answered with an error. *)
Theorem malformed_text_propagates (row : Setoran) (text : string) (db : Db) :
  str_truthy text = true ->
  json_loads text = None ->
  expenses_data row = Some text \/ income_data row = Some text ->
  parse_expenses (PyStr text) = [] /\
  read_row row = Err ServerError /\
  (forall setoran_id,
      query_first setoran_id db = Some row ->
      get_setoran_by_id setoran_id db = Err ServerError) /\
  (forall limit, get_all_setoran 0 (S limit) (row :: db) = Err ServerError) /\
  (forall setoran_id patch,
      query_first setoran_id db = Some row ->
      fst (update_setoran setoran_id patch db) = Err BadRequest).
Proof.
  intros Ht Hl Hcol.
  assert (Hbad : loads_if_truthy (expenses_data row) = None \/
                 loads_if_truthy (income_data row) = None).
  { destruct Hcol as [H|H]; rewrite H; simpl; rewrite Ht, Hl; tauto. }
  assert (Hread : read_row row = Err ServerError).
  { unfold read_row.
    destruct (loads_if_truthy (expenses_data row)); [|reflexivity].
    destruct Hbad as [H|H]; [discriminate H|]. now rewrite H. }
  split; [simpl; now rewrite Ht, Hl|]. split; [exact Hread|].
  split; [|split].
  - intros setoran_id Hq. unfold get_setoran_by_id. now rewrite Hq.
  - intro limit. unfold get_all_setoran. simpl. now rewrite Hread.
  - intros setoran_id patch Hq.
    destruct (touches_financial patch) eqn:T.
    + assert (R : recompute patch row = None).
      { unfold recompute.
        destruct (loads_if_truthy (expenses_data row)); [|reflexivity].
        destruct Hbad as [H|H]; [discriminate H|]. now rewrite H. }
      unfold update_setoran. rewrite Hq, T, R. reflexivity.
    + apply non_financial_touches in T.
      unfold update_setoran. rewrite Hq.
      rewrite (proj1 (non_financial_touches patch) T).
      destruct (set_other_fields_non_financial patch row T)
        as [[_ S]|[_ S]]; rewrite S; [reflexivity|].
      cbn [renamed_row expenses_data income_data].
      assert (Hbad' : loads_or_empty_array (expenses_data row) = None \/
                      loads_or_empty_array (income_data row) = None).
      { destruct Hcol as [H|H]; rewrite H; simpl; rewrite Ht, Hl; tauto. }
      destruct (loads_or_empty_array (expenses_data row));
        [|reflexivity].
      destruct Hbad' as [H|H]; [discriminate H|]. now rewrite H.
Qed.

End Names.

(** ** The theorems on concrete databases *)


Example patched_db_totals :
  match patched_db with
  | [r] => calc_eq (derived r) (mkCalc 50 575000 475000 50000 0 425000)
  | _ => False
  end.
Proof. vm_compute. tauto. Qed.

Lemma non_financial_patch_frame_witness :
  exists row',
    query_first 1 (snd (put_setoran 1 name_patch [stored_row])) = Some row' /\
    derived row' = derived stored_row.
Proof.
  destruct (non_financial_patch_frame 1 name_patch [stored_row] stored_row)
    as (row' & Hq & Hd & _).
  - reflexivity.
  - repeat split.
  - exists row'. split; assumption.
Defined.

Lemma rejected_requests_write_nothing_witness :
  exists e, put_setoran 1 backwards_patch [stored_row] = (Err e, [stored_row]).
Proof.
  destruct (rejected_requests_write_nothing [stored_row])
    as (_ & _ & _ & _ & H & _).
  apply (H 1%Z backwards_patch stored_row).
  - reflexivity.
  - reflexivity.
  - vm_compute. reflexivity.
Defined.

Lemma patch_names_unvalidated_witness :
  (exists row',
      query_first 1 (snd (put_setoran 1 name_patch [stored_row]))
      = Some row' /\
      db_employee_name row' = "" /\ db_jam_masuk row' = "25:99" /\
      db_jam_keluar row' = "soon") /\
  (exists e,
      put_setoran 1 name_qris_patch [stored_row] = (Err e, [stored_row])).
Proof.
  split.
  - destruct (patch_names_unvalidated 1 name_patch [stored_row] stored_row
                eq_refl) as [A _].
    destruct A as (row' & Hq & Hn & Hm & Hk & _).
    + repeat split.
    + intros [H|[H|H]]; discriminate H.
    + exists row'. repeat split; assumption.
  - destruct (patch_names_unvalidated 1 name_qris_patch [stored_row]
                stored_row eq_refl) as [_ B].
    apply B.
    + reflexivity.
    + left. reflexivity.
Defined.

Lemma omitted_fields_default_witness :
  post_calculate
    (mkPayload (Given "Budi") (Given "08:00") (Given "16:00")
               (Given 1000) (Given 1050) Unset Unset Unset)
  = Ok (calculate_setoran (mkCreate "Budi" "08:00" "16:00" 1000 1050 0 [] [])).
Proof.
  apply (omitted_fields_default "Budi" "08:00" "16:00" 1000 1050 []).
  - simpl. lia.
  - reflexivity.
  - reflexivity.
  - unfold Qle. simpl. lia.
  - unfold Qle. simpl. lia.
Defined.

Lemma malformed_text_propagates_witness :
  parse_expenses (PyStr "{oops") = [] /\
  get_setoran_by_id 1 [corrupt_row] = Err ServerError /\
  get_all_setoran 0 100 [corrupt_row] = Err ServerError.
Proof.
  destruct (malformed_text_propagates corrupt_row "{oops" [corrupt_row])
    as (A & _ & B & C & _).
  - reflexivity.
  - reflexivity.
  - left. reflexivity.
  - split; [exact A|]. split; [apply B; reflexivity|].
    apply (C 99%nat).
Defined.

(** * Further properties of the routes *)

(** ** What the engine guarantees on any input *)



(** ** What [SetoranCreate] accepts *)

(** A value that satisfies every constraint of the schema. *)
Definition valid_item (it : LineItem) : Prop :=
  has_text (description it) = true /\ 0 <= amount it.

Definition valid_input (d : SetoranCreate) : Prop :=
  (1 <= String.length (employee_name d))%nat /\
  time_pattern (jam_masuk d) = true /\
  time_pattern (jam_keluar d) = true /\
  0 <= nomor_awal d /\
  nomor_awal d <= nomor_akhir d /\
  0 <= qris_setoran d /\
  Forall valid_item (expenses d) /\
  Forall valid_item (income d).

(** The body that gives every field of [d]. *)
Definition payload_of (d : SetoranCreate) : Payload :=
  mkPayload (Given (employee_name d)) (Given (jam_masuk d))
            (Given (jam_keluar d)) (Given (nomor_awal d))
            (Given (nomor_akhir d)) (Given (qris_setoran d))
            (Given (expenses d)) (Given (income d)).

Lemma has_text_length (s : string) :
  has_text s = true -> (1 <=? String.length s)%nat = true.
Proof.
  destruct s; [discriminate | reflexivity].
Qed.

Lemma list_checks_valid (l : list LineItem) :
  forallb item_ok l && validate_items l = true <-> Forall valid_item l.
Proof.
  induction l as [|it l IH].
  - simpl. split; [constructor | reflexivity].
  - cbn [forallb validate_items]. rewrite truthy_strip.
    unfold item_ok at 1. split.
    + intro H. apply andb_true_iff in H. destruct H as [H1 H2].
      apply andb_true_iff in H1. destruct H1 as [H1 H3].
      apply andb_true_iff in H1. destruct H1 as [_ Hge].
      destruct (has_text (description it)) eqn:T; [|discriminate H2].
      cbn [negb] in H2.
      destruct (Qltb (amount it) 0) eqn:L; [discriminate H2|].
      constructor.
      * split; [exact T | now apply Qgeb_true].
      * apply IH. now rewrite H3, H2.
    + intro H. inversion H as [|x l' [T A] Hl]; subst.
      apply IH in Hl. apply andb_true_iff in Hl. destruct Hl as [H3 H2].
      rewrite (has_text_length _ T), T, H3. cbn [negb andb].
      assert (G : Qgeb (amount it) 0 = true) by now apply Qgeb_true.
      assert (L : Qltb (amount it) 0 = false) by now apply Qltb_false.
      now rewrite G, L.
Qed.

Lemma list_field_valid (f : field (list LineItem)) (l : list LineItem) :
  list_field f = Some l -> Forall valid_item l.
Proof.
  destruct f as [| |v]; simpl; try discriminate.
  - intro H; inversion H. constructor.
  - destruct (forallb item_ok v && validate_items v) eqn:E; [|discriminate].
    intro H; inversion H; subst. now apply list_checks_valid.
Qed.

Lemma parse_SetoranCreate_sound (p : Payload) (d : SetoranCreate) :
  parse_SetoranCreate p = Some d -> valid_input d.
Proof.
  intro P. apply parse_SetoranCreate_Some in P.
  destruct P as (Pn & Pm & Pk & Pa & Pb & Hle & Pq & Pe & Pi).
  apply required_str_Given in Pn, Pm, Pk.
  apply required_ge0_Given in Pa, Pb.
  unfold valid_input. repeat split.
  - apply Nat.leb_le. apply Pn.
  - apply Pm.
  - apply Pk.
  - apply Pa.
  - exact Hle.
  - destruct (f_qris_setoran p) as [| |x]; simpl in Pq; try discriminate.
    + inversion Pq. lra.
    + destruct (Qgeb x 0) eqn:G; [|discriminate].
      inversion Pq; subst. now apply Qgeb_true.
  - now apply list_field_valid with (f_expenses p).
  - now apply list_field_valid with (f_income p).
Qed.

(** The schema is sound and complete for [valid_input]: whatever body it
    accepts yields a valid input, in particular with every description
    non-blank and no amount negative; and the body that gives all eight
    fields of an input is accepted, unchanged, exactly when the input is
    valid. *)
Theorem parse_SetoranCreate_valid (p : Payload) (d : SetoranCreate) :
  (parse_SetoranCreate p = Some d -> valid_input d) /\
  (parse_SetoranCreate (payload_of d) = Some d <-> valid_input d) /\
  (parse_SetoranCreate (payload_of d) = None <-> ~ valid_input d).
Proof.
  assert (Sound : forall q, parse_SetoranCreate q = Some d -> valid_input d)
    by (intro q; apply parse_SetoranCreate_sound).
  assert (Complete : valid_input d -> parse_SetoranCreate (payload_of d)
                                      = Some d).
  { intros (Hn & Hm & Hk & Ha & Hab & Hq & He & Hi).
    unfold parse_SetoranCreate, payload_of.
    cbn [f_employee_name f_jam_masuk f_jam_keluar f_nomor_awal
         f_nomor_akhir f_qris_setoran f_expenses f_income
         required_str required_ge0 default_ge0 list_field].
    apply Nat.leb_le in Hn. rewrite Hn, Hm, Hk.
    assert (Ga : Qgeb (nomor_awal d) 0 = true) by now apply Qgeb_true.
    assert (Gb : Qgeb (nomor_akhir d) 0 = true) by (apply Qgeb_true; lra).
    assert (Gq : Qgeb (qris_setoran d) 0 = true) by now apply Qgeb_true.
    assert (Lb : Qltb (nomor_akhir d) (nomor_awal d) = false)
      by now apply Qltb_false.
    rewrite Ga, Gb. cbn [validate_nomor_akhir]. rewrite Lb, Gq.
    apply list_checks_valid in He, Hi. rewrite He, Hi.
    destruct d; reflexivity. }
  split; [apply Sound|]. split.
  - split; [apply Sound | apply Complete].
  - split.
    + intros N V. rewrite (Complete V) in N. discriminate.
    + intro N. destruct (parse_SetoranCreate (payload_of d)) as [d'|] eqn:P;
        [|reflexivity].
      exfalso. apply N.
      assert (d' = d).
      { pose proof (parse_SetoranCreate_Some _ _ P) as Q.
        destruct Q as (Pn & Pm & Pk & Pa & Pb & _ & Pq & Pe & Pi).
        apply required_str_Given in Pn, Pm, Pk.
        apply required_ge0_Given in Pa, Pb.
        destruct Pn as [Pn _], Pm as [Pm _], Pk as [Pk _],
                 Pa as [Pa _], Pb as [Pb _].
        simpl in *.
        destruct (Qgeb (qris_setoran d) 0); [|discriminate].
        destruct (forallb item_ok (expenses d) && validate_items (expenses d));
          [|discriminate].
        destruct (forallb item_ok (income d) && validate_items (income d));
          [|discriminate].
        destruct d, d'; simpl in *. congruence. }
      subst d'. now apply Sound with (payload_of d).
Qed.

(** ** Keys *)

Lemma fresh_id_above (db : Db) (r : Setoran) :
  In r db -> (db_id r < fresh_id db)%Z.
Proof.
  unfold fresh_id. intro Hin.
  assert (H : (db_id r <= fold_right (fun r m => Z.max (db_id r) m) 0 db)%Z).
  { induction db as [|x db IH]; [destruct Hin|].
    cbn [fold_right]. destruct Hin as [->|Hin].
    - apply Z.le_max_l.
    - specialize (IH Hin). etransitivity; [exact IH | apply Z.le_max_r]. }
  lia.
Qed.

Lemma filter_shorter {A} (f : A -> bool) (l : list A) (x : A) :
  In x l -> f x = false ->
  (List.length (filter f l) < List.length l)%nat.
Proof.
  intros Hin Hf.
  assert (G : forall k : list A,
             (List.length (filter f k) <= List.length k)%nat).
  { induction k as [|y k IH]; simpl; [lia|].
    destruct (f y); simpl; lia. }
  induction l as [|y l IH]; [destruct Hin|].
  simpl. destruct Hin as [->|Hin].
  - rewrite Hf. specialize (G l). lia.
  - specialize (IH Hin). destruct (f y); simpl; lia.
Qed.

Lemma query_first_fresh (db : Db) : query_first (fresh_id db) db = None.
Proof.
  unfold query_first.
  destruct (find _ db) as [r|] eqn:F; [|reflexivity].
  apply find_some in F. destruct F as [Hin Hid].
  apply Z.eqb_eq in Hid. apply fresh_id_above in Hin. lia.
Qed.

Lemma query_first_add (i : Z) (db : Db) (r : Setoran) :
  query_first i (db_add r db)
  = match query_first i db with
    | Some x => Some x
    | None => if (db_id r =? i)%Z then Some r else None
    end.
Proof.
  unfold query_first, db_add. induction db as [|x db IH]; simpl.
  - reflexivity.
  - destruct (db_id x =? i)%Z; [reflexivity | exact IH].
Qed.

Lemma query_first_delete_same (i : Z) (db : Db) :
  query_first i (db_delete i db) = None.
Proof.
  unfold query_first, db_delete.
  destruct (find _ (filter _ db)) as [r|] eqn:F; [|reflexivity].
  apply find_some in F. destruct F as [Hin Hid].
  apply filter_In in Hin. destruct Hin as [_ Hne].
  rewrite Hid in Hne. discriminate.
Qed.

Lemma query_first_delete_other (i j : Z) (db : Db) :
  i <> j -> query_first i (db_delete j db) = query_first i db.
Proof.
  intro Hne. unfold query_first, db_delete.
  induction db as [|x db IH]; simpl; [reflexivity|].
  destruct (db_id x =? j)%Z eqn:E; simpl.
  - apply Z.eqb_eq in E.
    destruct (db_id x =? i)%Z eqn:F; [apply Z.eqb_eq in F; congruence|].
    exact IH.
  - destruct (db_id x =? i)%Z; [reflexivity | exact IH].
Qed.

Lemma map_id_db_replace (r : Setoran) (db : Db) :
  map db_id (db_replace r db) = map db_id db.
Proof.
  unfold db_replace. induction db as [|x db IH]; simpl; [reflexivity|].
  rewrite IH. destruct (db_id x =? db_id r)%Z eqn:E; [|reflexivity].
  apply Z.eqb_eq in E. now rewrite E.
Qed.

Lemma db_replace_twice (r : Setoran) (db : Db) :
  db_replace r (db_replace r db) = db_replace r db.
Proof.
  unfold db_replace. rewrite map_map. apply map_ext. intro x.
  destruct (db_id x =? db_id r)%Z eqn:E.
  - now rewrite Z.eqb_refl.
  - now rewrite E.
Qed.

(** ** Creating and reading back *)

Section CreateFacts.

Context {codec : JsonCodec}.

(** The row the create route commits. *)
Definition created_row (data : SetoranCreate) (db : Db) : Setoran :=
  let calculation := calculate_setoran data in
  mkRow (fresh_id db)
        (employee_name data) (jam_masuk data) (jam_keluar data)
        (nomor_awal data) (nomor_akhir data)
        (total_liter calculation) (total_setoran calculation)
        (qris_setoran data) (cash_setoran calculation)
        (Some (dumps_if_truthy (expenses data)))
        (total_expenses calculation)
        (Some (dumps_if_truthy (income data)))
        (total_income calculation)
        (total_keseluruhan calculation).

Lemma create_setoran_eq (data : SetoranCreate) (db : Db) :
  create_setoran data db
  = (to_response (created_row data db) (PyList (expenses data))
                 (PyList (income data)),
     db_add (created_row data db) db).
Proof.
  unfold create_setoran. cbv zeta. cbn [expenses_data income_data].
  rewrite !loads_if_truthy_dumps_if_truthy. reflexivity.
Qed.

Lemma read_row_created (data : SetoranCreate) (db : Db) :
  read_row (created_row data db)
  = to_response (created_row data db) (PyList (expenses data))
                (PyList (income data)).
Proof.
  unfold read_row, created_row. cbv zeta. cbn [expenses_data income_data].
  rewrite !loads_if_truthy_dumps_if_truthy. reflexivity.
Qed.

Lemma valid_items_ok (l : list LineItem) :
  Forall valid_item l -> forallb item_ok l = true.
Proof.
  intro H. apply list_checks_valid in H.
  apply andb_true_iff in H. tauto.
Qed.


(** Reading back what was created: when the create route answers with a
    record, the get route answers the very same record under its key, and
    every record that could be found before is still found, unchanged. *)
Theorem get_after_post (body : Payload) (db db' : Db)
  (resp : SetoranResponse) :
  post_setoran body db = (Ok resp, db') ->
  get_setoran_by_id (r_id resp) db' = Ok resp /\
  List.length db' = S (List.length db) /\
  forall setoran_id r,
    query_first setoran_id db = Some r ->
    query_first setoran_id db' = Some r.
Proof.
  unfold post_setoran.
  destruct (parse_SetoranCreate body) as [data|]; [|discriminate].
  rewrite create_setoran_eq. intro H. injection H as Hr Hd. subst db'.
  assert (Hid : r_id resp = fresh_id db).
  { unfold to_response in Hr.
    destruct (_ && _); [|discriminate]. inversion Hr. reflexivity. }
  split; [|split].
  - unfold get_setoran_by_id. rewrite query_first_add, Hid.
    rewrite query_first_fresh. cbn [created_row db_id].
    rewrite Z.eqb_refl. rewrite read_row_created. exact Hr.
  - unfold db_add. rewrite length_app. simpl. lia.
  - intros setoran_id r Hq. rewrite query_first_add, Hq. reflexivity.
Qed.

(** Deleting: a key that is not found leaves the database as it is and is
    answered 404; a key that is found is answered with success, after which
    the key is not found any more (by the get route and by a second delete)
    and every other key finds what it found before. *)
Theorem delete_setoran_effect (setoran_id : Z) (db : Db) :
  (query_first setoran_id db = None ->
   delete_setoran setoran_id db = (Err NotFound, db)) /\
  (forall r, query_first setoran_id db = Some r ->
     let db' := snd (delete_setoran setoran_id db) in
     fst (delete_setoran setoran_id db) = Ok tt /\
     get_setoran_by_id setoran_id db' = Err NotFound /\
     delete_setoran setoran_id db' = (Err NotFound, db') /\
     (List.length db' < List.length db)%nat /\
     forall other, other <> setoran_id ->
                   query_first other db' = query_first other db).
Proof.
  unfold delete_setoran. split.
  - intros ->. reflexivity.
  - intros r Hq. rewrite Hq. cbn [fst snd].
    split; [reflexivity|]. split; [|split; [|split]].
    + unfold get_setoran_by_id. now rewrite query_first_delete_same.
    + now rewrite query_first_delete_same.
    + apply query_first_Some in Hq. destruct Hq as [Hin Hid].
      unfold db_delete. apply filter_shorter with r; [exact Hin|].
      rewrite Hid, Z.eqb_refl. reflexivity.
    + intros other Hne. now apply query_first_delete_other.
Qed.

End CreateFacts.

(** ** Updating *)

Section PutFacts.

Context {codec : JsonCodec}.

Lemma recompute_keeps (patch : Payload) (row r1 : Setoran) :
  recompute patch row = Some r1 -> db_id r1 = db_id row.
Proof.
  unfold recompute.
  destruct (loads_if_truthy (expenses_data row)); [|discriminate].
  destruct (loads_if_truthy (income_data row)); [|discriminate].
  destruct (parse_SetoranCreate _); [|discriminate].
  intro H; inversion H. reflexivity.
Qed.

Lemma set_other_fields_keeps (patch : Payload) (r r2 : Setoran) :
  set_other_fields patch r = Some r2 ->
  db_id r2 = db_id r /\ expenses_data r2 = expenses_data r /\
  income_data r2 = income_data r /\ derived r2 = derived r.
Proof.
  unfold set_other_fields.
  destruct (setattr (f_employee_name patch) _); [|discriminate].
  destruct (setattr (f_jam_masuk patch) _); [|discriminate].
  destruct (setattr (f_jam_keluar patch) _); [|discriminate].
  destruct (setattr (f_nomor_awal patch) _); [|discriminate].
  destruct (setattr (f_nomor_akhir patch) _); [|discriminate].
  destruct (setattr (f_qris_setoran patch) _); [|discriminate].
  intro H; inversion H. repeat split.
Qed.

(** The three ways the update route can end. *)
Lemma update_setoran_outcome (setoran_id : Z) (patch : Payload) (db : Db) :
  (query_first setoran_id db = None /\
   update_setoran setoran_id patch db = (Err NotFound, db)) \/
  (query_first setoran_id db <> None /\
   update_setoran setoran_id patch db = (Err BadRequest, db)) \/
  (exists r2,
      query_first setoran_id db <> None /\
      db_id r2 = setoran_id /\
      snd (update_setoran setoran_id patch db) = db_replace r2 db /\
      ((exists e i,
           loads_or_empty_array (expenses_data r2) = Some e /\
           loads_or_empty_array (income_data r2) = Some i /\
           fst (update_setoran setoran_id patch db)
           = to_response r2 (PyList e) (PyList i)) \/
       ((loads_or_empty_array (expenses_data r2) = None \/
         loads_or_empty_array (income_data r2) = None) /\
        fst (update_setoran setoran_id patch db) = Err BadRequest))).
Proof.
  unfold update_setoran.
  destruct (query_first setoran_id db) as [row|] eqn:Hq;
    [|left; split; reflexivity].
  right. pose proof (query_first_Some _ _ _ Hq) as [_ Hid].
  assert (R : exists o, (if touches_financial patch
                         then recompute patch row else Some row) = o /\
                        forall r1, o = Some r1 -> db_id r1 = db_id row).
  { eexists. split; [reflexivity|]. intros r1.
    destruct (touches_financial patch).
    - apply recompute_keeps.
    - intro H; now inversion H. }
  destruct R as (o & -> & Ho).
  destruct o as [r1|]; [|left; split; [discriminate | reflexivity]].
  specialize (Ho r1 eq_refl).
  destruct (set_other_fields patch r1) as [r2|] eqn:S;
    [|left; split; [discriminate | reflexivity]].
  apply set_other_fields_keeps in S. destruct S as (S & _).
  right. exists r2. split; [discriminate|]. split; [congruence|].
  destruct (loads_or_empty_array (expenses_data r2)) as [e|].
  - destruct (loads_or_empty_array (income_data r2)) as [i|].
    + split; [reflexivity|]. left. now exists e, i.
    + split; [reflexivity|]. right. split; [now right | reflexivity].
  - split; [reflexivity|]. right. split; [now left | reflexivity].
Qed.

Lemma to_response_not (r : Setoran) (a b : pyobj) (e : http_error) :
  to_response r a b = Err e -> e = ServerError.
Proof.
  unfold to_response. destruct (_ && _); [discriminate|].
  intro H; now inversion H.
Qed.

Lemma loads_or_empty_array_inv (column : option string) (l : list LineItem) :
  loads_or_empty_array column = Some l -> loads_if_truthy column = Some l.
Proof.
  destruct column as [text|]; simpl.
  - destruct (str_truthy text); [tauto|].
    rewrite loads_empty_array. tauto.
  - rewrite loads_empty_array. tauto.
Qed.

(** The update route never adds, removes or re-keys a row: the keys of the
    table are the same, in the same order, after any PUT, whatever it
    answers, and a row under another key is found exactly as before. *)
Theorem put_setoran_keeps_keys (setoran_id : Z) (body : Payload) (db : Db) :
  let db' := snd (put_setoran setoran_id body db) in
  map db_id db' = map db_id db /\
  List.length db' = List.length db /\
  forall other, other <> setoran_id ->
                query_first other db' = query_first other db.
Proof.
  cbv zeta.
  assert (H : snd (put_setoran setoran_id body db) = db \/
              exists r2, db_id r2 = setoran_id /\
                snd (put_setoran setoran_id body db) = db_replace r2 db).
  { unfold put_setoran.
    destruct (parse_SetoranUpdate body) as [u|]; [|now left].
    destruct (update_setoran_outcome setoran_id u db)
      as [[_ ->]|[[_ ->]|(r2 & _ & Hid & Hs & _)]];
      [now left | now left | right; now exists r2]. }
  destruct H as [->|(r2 & Hid & ->)].
  - repeat split.
  - split; [apply map_id_db_replace|]. split.
    + unfold db_replace. apply length_map.
    + intros other Hne. now apply query_first_replace_other with setoran_id.
Qed.

(** Which PUT is answered 422 and which 404: the body is checked before
    the key is looked up.  The answer is 422 exactly when a given item has
    an empty description or a negative amount, whether the key exists or
    not; it is 404 exactly when the body passes and the key is not found;
    both leave the database as it is. *)
Theorem put_setoran_status (setoran_id : Z) (body : Payload) (db : Db) :
  (fst (put_setoran setoran_id body db) = Err Unprocessable <->
   optional_list (f_expenses body) && optional_list (f_income body) = false)
  /\
  (fst (put_setoran setoran_id body db) = Err NotFound <->
   optional_list (f_expenses body) && optional_list (f_income body) = true
   /\ query_first setoran_id db = None) /\
  (fst (put_setoran setoran_id body db) = Err Unprocessable \/
   fst (put_setoran setoran_id body db) = Err NotFound ->
   snd (put_setoran setoran_id body db) = db).
Proof.
  unfold put_setoran, parse_SetoranUpdate.
  destruct (optional_list (f_expenses body) && optional_list (f_income body)).
  - destruct (update_setoran_outcome setoran_id body db)
      as [[Hq E]|[[Hq E]|(r2 & Hq & _ & _ & [(e & i & _ & _ & F)|[_ F]])]].
    + rewrite E. cbn [fst snd].
      repeat split; try discriminate; try tauto.
    + rewrite E. cbn [fst snd].
      repeat split; try discriminate; try tauto.
    + rewrite F. split; [|split].
      * split; [|discriminate]. intro H.
        destruct (to_response r2 _ _) eqn:T; [discriminate|].
        apply to_response_not in T. congruence.
      * split; [|tauto]. intro H.
        destruct (to_response r2 _ _) eqn:T; [discriminate|].
        apply to_response_not in T. congruence.
      * intros [H|H]; destruct (to_response r2 _ _) eqn:T;
          try discriminate; apply to_response_not in T; congruence.
    + rewrite F. split; [|split].
      * split; discriminate.
      * split; [discriminate | tauto].
      * intros [H|H]; discriminate.
  - cbn [fst snd]. split; [|split].
    + split; reflexivity.
    + split; [discriminate|]. intros [H _]. discriminate.
    + reflexivity.
Qed.

(** Reading back what was updated: whenever the update route answers with
    a record, the get route answers the very same record under that key. *)
Theorem get_after_put (setoran_id : Z) (body : Payload) (db db' : Db)
  (resp : SetoranResponse) :
  put_setoran setoran_id body db = (Ok resp, db') ->
  get_setoran_by_id setoran_id db' = Ok resp.
Proof.
  unfold put_setoran.
  destruct (parse_SetoranUpdate body) as [u|]; [|discriminate].
  intro H.
  destruct (update_setoran_outcome setoran_id u db)
    as [[_ E]|[[_ E]|(r2 & Hq & Hid & Hs & [(e & i & Le & Li & F)|[_ F]])]];
    try (rewrite E in H; discriminate).
  - rewrite H in Hs, F. cbn [fst snd] in Hs, F. subst db'.
    unfold get_setoran_by_id.
    destruct (query_first setoran_id db) as [row|] eqn:Q; [|congruence].
    rewrite (query_first_replace _ _ row r2 Q Hid).
    unfold read_row.
    rewrite (loads_or_empty_array_inv _ _ Le).
    rewrite (loads_or_empty_array_inv _ _ Li). now symmetry.
  - rewrite H in F. discriminate.
Qed.

End PutFacts.

Section PutTwice.

Context {codec : JsonCodec}.

Lemma overlay_twice {A} (f : field A) (stored : A) :
  overlay f (overlay f stored) = overlay f stored.
Proof. destruct f; reflexivity. Qed.

Lemma decoded_dumps (l : list LineItem) : decoded (Some (json_dumps l)) = l.
Proof.
  apply loads_if_truthy_decoded. apply loads_if_truthy_dumps.
Qed.

Lemma overlay_decoded_set (f : field (list LineItem))
  (column : option string) :
  overlay f (decoded (if is_set f
                      then Some (json_dumps (overlay f (decoded column)))
                      else column))
  = overlay f (decoded column).
Proof.
  destruct f as [| |l]; cbn [is_set overlay].
  - reflexivity.
  - apply decoded_dumps.
  - reflexivity.
Qed.

Lemma merged_input_recomputed (patch : Payload) (row : Setoran) :
  merged_input patch (recomputed_row patch row) = merged_input patch row.
Proof.
  unfold merged_input at 1. unfold recomputed_row. cbv zeta.
  cbn [db_employee_name db_jam_masuk db_jam_keluar db_nomor_awal
       db_nomor_akhir db_qris_setoran expenses_data income_data].
  unfold merged_input.
  cbn [employee_name jam_masuk jam_keluar nomor_awal nomor_akhir
       qris_setoran expenses income].
  rewrite !overlay_twice, !overlay_decoded_set. reflexivity.
Qed.

Lemma recomputed_row_twice (patch : Payload) (row : Setoran) :
  recomputed_row patch (recomputed_row patch row) = recomputed_row patch row.
Proof.
  unfold recomputed_row at 1. cbv zeta.
  rewrite merged_input_recomputed.
  unfold recomputed_row. cbv zeta.
  cbn [db_id expenses_data income_data].
  destruct (is_set (f_expenses patch)), (is_set (f_income patch));
    reflexivity.
Qed.

Lemma renamed_row_twice (patch : Payload) (row : Setoran) :
  renamed_row patch (renamed_row patch row) = renamed_row patch row.
Proof.
  unfold renamed_row. cbn. now rewrite !overlay_twice.
Qed.

(** PUT is idempotent on the table: sending the same body to the same key
    a second time leaves the database exactly as the first time left it,
    whatever the two answers are. *)
Theorem put_setoran_idempotent (setoran_id : Z) (body : Payload) (db : Db) :
  let db' := snd (put_setoran setoran_id body db) in
  snd (put_setoran setoran_id body db') = db'.
Proof.
  cbv zeta. unfold put_setoran.
  destruct (parse_SetoranUpdate body) as [u|] eqn:U; [|reflexivity].
  assert (u = body).
  { unfold parse_SetoranUpdate in U. destruct (_ && _); now inversion U. }
  subst u.
  destruct (query_first setoran_id db) as [row|] eqn:Hq.
  - pose proof (query_first_Some _ _ _ Hq) as [_ Hid].
    destruct (touches_financial body) eqn:T.
    + destruct (update_setoran_financial _ _ _ _ Hq T)
        as [[R E]|(_ & _ & resp & _ & E)].
      * rewrite E. cbn [snd]. now rewrite E.
      * rewrite E. cbn [snd].
        assert (Hq' : query_first setoran_id
                        (db_replace (recomputed_row body row) db)
                      = Some (recomputed_row body row))
          by now apply (query_first_replace _ _ row).
        destruct (update_setoran_financial _ _ _ _ Hq' T)
          as [[_ E']|(_ & _ & resp' & _ & E')]; rewrite E'; cbn [snd].
        -- reflexivity.
        -- rewrite recomputed_row_twice. apply db_replace_twice.
    + apply non_financial_touches in T.
      destruct (update_setoran_non_financial _ _ _ _ Hq T)
        as [[N E]|(N & E & _)].
      * rewrite E. cbn [snd]. now rewrite E.
      * rewrite E.
        assert (Hq' : query_first setoran_id
                        (db_replace (renamed_row body row) db)
                      = Some (renamed_row body row))
          by now apply (query_first_replace _ _ row).
        destruct (update_setoran_non_financial _ _ _ _ Hq' T)
          as [[N' _]|(_ & E' & _)]; [contradiction|].
        rewrite E', renamed_row_twice. apply db_replace_twice.
  - unfold update_setoran. rewrite Hq. cbn [snd]. now rewrite Hq.
Qed.

(** Some field of the patch is [null]. *)
Definition has_null (patch : Payload) : Prop :=
  f_employee_name patch = Null \/ f_jam_masuk patch = Null \/
  f_jam_keluar patch = Null \/ f_nomor_awal patch = Null \/
  f_nomor_akhir patch = Null \/ f_qris_setoran patch = Null \/
  f_expenses patch = Null \/ f_income patch = Null.

Lemma parse_rejects_null (p : Payload) :
  has_null p -> parse_SetoranCreate p = None.
Proof.
  intro H.
  destruct (parse_SetoranCreate p) as [d|] eqn:P; [|reflexivity].
  apply parse_SetoranCreate_Some in P.
  destruct P as (Pn & Pm & Pk & Pa & Pb & _ & Pq & Pe & Pi).
  destruct H as [H|[H|[H|[H|[H|[H|[H|H]]]]]]]; rewrite H in *;
    discriminate.
Qed.

(** A patch that gives [null] for any of its eight fields is refused and
    writes nothing, on either path of the update route. *)
Theorem null_patch_refused (setoran_id : Z) (patch : Payload) (db : Db) :
  has_null patch ->
  exists e, put_setoran setoran_id patch db = (Err e, db).
Proof.
  intro Hn. unfold put_setoran.
  destruct (parse_SetoranUpdate patch) as [u|] eqn:U;
    [|now exists Unprocessable].
  assert (u = patch).
  { unfold parse_SetoranUpdate in U. destruct (_ && _); now inversion U. }
  subst u.
  destruct (query_first setoran_id db) as [row|] eqn:Hq.
  - destruct (touches_financial patch) eqn:T.
    + destruct (update_setoran_financial _ _ _ _ Hq T)
        as [[_ E]|(P & _)]; [now exists BadRequest|].
      rewrite parse_rejects_null in P; [discriminate|].
      unfold has_null, merged_kwargs. cbn.
      destruct Hn as [H|[H|[H|[H|[H|[H|[H|H]]]]]]]; rewrite H; cbn; tauto.
    + apply non_financial_touches in T.
      destruct (update_setoran_non_financial _ _ _ _ Hq T)
        as [[_ E]|(N & _)]; [now exists BadRequest|].
      exfalso. apply N. unfold nulls_a_name.
      destruct T as (Ta & Tb & Tq & Te & Ti).
      destruct Hn as [H|[H|[H|[H|[H|[H|[H|H]]]]]]]; try tauto;
        congruence.
  - exists NotFound. unfold update_setoran. now rewrite Hq.
Qed.

(** The update route commits before it decodes the stored texts for its
    answer.  On a row whose stored text [json.loads] refuses, a patch of
    names and times is therefore written to the table although the route
    answers 400. *)
Theorem update_commits_before_failing (setoran_id : Z) (patch : Payload)
  (db : Db) (row : Setoran) (text : string) :
  query_first setoran_id db = Some row ->
  non_financial patch -> ~ nulls_a_name patch ->
  expenses_data row = Some text \/ income_data row = Some text ->
  str_truthy text = true -> json_loads text = None ->
  put_setoran setoran_id patch db
  = (Err BadRequest, db_replace (renamed_row patch row) db) /\
  query_first setoran_id (db_replace (renamed_row patch row) db)
  = Some (renamed_row patch row).
Proof.
  intros Hq Hn Hnull Hcol Ht Hl.
  rewrite (put_setoran_non_financial _ _ _ Hn).
  pose proof (query_first_Some _ _ _ Hq) as [_ Hid].
  split; [|now apply (query_first_replace _ _ row)].
  unfold update_setoran. rewrite Hq.
  rewrite (proj1 (non_financial_touches patch) Hn).
  destruct (set_other_fields_non_financial patch row Hn)
    as [[N _]|[_ S]]; [contradiction|].
  rewrite S. cbn [renamed_row expenses_data income_data].
  assert (Hbad : loads_or_empty_array (expenses_data row) = None \/
                 loads_or_empty_array (income_data row) = None).
  { destruct Hcol as [H|H]; rewrite H; simpl; rewrite Ht, Hl; tauto. }
  destruct (loads_or_empty_array (expenses_data row)); [|reflexivity].
  destruct Hbad as [H|H]; [discriminate H|]. now rewrite H.
Qed.

End PutTwice.

(** ** Listing *)

Section ListFacts.

Context {codec : JsonCodec}.



Lemma read_row_id (r : Setoran) (resp : SetoranResponse) :
  read_row r = Ok resp -> r_id resp = db_id r.
Proof.
  unfold read_row.
  destruct (loads_if_truthy (expenses_data r)); [|discriminate].
  destruct (loads_if_truthy (income_data r)); [|discriminate].
  unfold to_response. destruct (_ && _); [|discriminate].
  intro H; inversion H. reflexivity.
Qed.



End ListFacts.

(** ** Tables written through the HTTP routes *)

Section Served.

Context {codec : JsonCodec}.

(** The get route can answer a row. *)
Definition readable (r : Setoran) : Prop :=
  exists resp, read_row r = Ok resp.

(** The tables the four HTTP routes that write can produce from the empty
    one: every body passes its schema before its route runs. *)
Inductive served : Db -> Prop :=
| served_empty : served []
| served_post (body : Payload) (db : Db) :
    served db -> served (snd (post_setoran body db))
| served_put (setoran_id : Z) (body : Payload) (db : Db) :
    served db -> served (snd (put_setoran setoran_id body db))
| served_delete (setoran_id : Z) (db : Db) :
    served db -> served (snd (delete_setoran setoran_id db)).

Lemma readable_renamed (patch : Payload) (row : Setoran) :
  readable row -> readable (renamed_row patch row).
Proof.
  intros [resp R]. apply read_row_Ok in R.
  destruct R as (e & i & Le & Li & V).
  unfold readable, read_row.
  cbn [renamed_row expenses_data income_data]. rewrite Le, Li.
  unfold to_response. cbn [parse_expenses]. rewrite V.
  eexists. reflexivity.
Qed.

Lemma readable_created (body : Payload) (data : SetoranCreate) (db : Db) :
  parse_SetoranCreate body = Some data -> readable (created_row data db).
Proof.
  intro P. unfold readable. rewrite read_row_created.
  destruct (parse_SetoranCreate_sound body data P)
    as (_ & _ & _ & _ & _ & _ & Ve & Vi).
  unfold to_response. cbn [parse_expenses].
  rewrite (valid_items_ok _ Ve), (valid_items_ok _ Vi).
  eexists. reflexivity.
Qed.

Lemma update_setoran_Ok (setoran_id : Z) (patch : Payload) (db db' : Db)
  (resp : SetoranResponse) :
  update_setoran setoran_id patch db = (Ok resp, db') ->
  exists r2, db_id r2 = setoran_id /\ db' = db_replace r2 db /\
             read_row r2 = Ok resp.
Proof.
  intro H.
  destruct (update_setoran_outcome setoran_id patch db)
    as [[_ E]|[[_ E]|(r2 & _ & Hid & Hs & [(e & i & Le & Li & F)|[_ F]])]];
    try (rewrite E in H; discriminate).
  - rewrite H in Hs, F. cbn [fst snd] in Hs, F.
    exists r2. split; [exact Hid|]. split; [exact Hs|].
    unfold read_row.
    rewrite (loads_or_empty_array_inv _ _ Le).
    rewrite (loads_or_empty_array_inv _ _ Li). now symmetry.
  - rewrite H in F. discriminate.
Qed.

Lemma NoDup_snoc {A} (l : list A) (x : A) :
  NoDup l -> ~ In x l -> NoDup (l ++ [x])%list.
Proof.
  induction 1 as [|y l Hy Hl IH]; intro Hx; simpl.
  - constructor; [tauto | constructor].
  - constructor.
    + rewrite in_app_iff. simpl. intros [H|[H|[]]]; [tauto|].
      apply Hx. now left.
    + apply IH. intro H. apply Hx. now right.
Qed.

Lemma NoDup_map_filter {A B} (f : A -> B) (g : A -> bool) (l : list A) :
  NoDup (map f l) -> NoDup (map f (filter g l)).
Proof.
  induction l as [|x l IH]; simpl; intro H; [constructor|].
  inversion H as [|y k Hx Hk]; subst.
  destruct (g x); simpl; [|now apply IH].
  constructor; [|now apply IH].
  intro Hin. apply Hx. apply in_map_iff in Hin.
  destruct Hin as (z & Hz & Hf). apply filter_In in Hf.
  apply in_map_iff. exists z. tauto.
Qed.

Lemma served_invariant (db : Db) :
  served db -> Forall readable db /\ NoDup (map db_id db).
Proof.
  induction 1 as [|body db _ [IHr IHn]|setoran_id body db _ [IHr IHn]
                  |setoran_id db _ [IHr IHn]].
  - split; constructor.
  - unfold post_setoran.
    destruct (parse_SetoranCreate body) as [data|] eqn:P; [|now split].
    rewrite create_setoran_eq. cbn [snd]. unfold db_add. split.
    + apply Forall_app. split; [exact IHr|].
      constructor; [|constructor]. now apply readable_created with body.
    + rewrite map_app. apply NoDup_snoc; [exact IHn|].
      cbn [map created_row db_id]. intro Hin.
      apply in_map_iff in Hin. destruct Hin as (r & Hid & Hin).
      apply fresh_id_above in Hin. lia.
  - unfold put_setoran.
    destruct (parse_SetoranUpdate body) as [u|] eqn:U; [|now split].
    destruct (query_first setoran_id db) as [row|] eqn:Hq.
    + pose proof (query_first_Some _ _ _ Hq) as [Hin _].
      assert (Hrow : readable row)
        by (rewrite Forall_forall in IHr; now apply IHr).
      destruct (touches_financial u) eqn:T.
      * destruct (update_setoran_financial _ _ _ _ Hq T)
          as [[_ E]|(_ & _ & resp & _ & E)]; [rewrite E; now split|].
        destruct (update_setoran_Ok _ _ _ _ _ E) as (r2 & _ & Hd & Hr).
        rewrite E. cbn [snd]. rewrite Hd. split.
        -- apply Forall_db_replace; [now exists resp | exact IHr].
        -- now rewrite map_id_db_replace.
      * apply non_financial_touches in T.
        destruct (update_setoran_non_financial _ _ _ _ Hq T)
          as [[_ E]|(_ & E & _)]; [rewrite E; now split|].
        rewrite E. split.
        -- apply Forall_db_replace; [|exact IHr].
           now apply readable_renamed.
        -- now rewrite map_id_db_replace.
    + unfold update_setoran. rewrite Hq. now split.
  - unfold delete_setoran.
    destruct (query_first setoran_id db); [|now split].
    cbn [snd]. unfold db_delete. split.
    + rewrite Forall_forall in *. intros x Hx.
      apply filter_In in Hx. apply IHr. tauto.
    + now apply NoDup_map_filter.
Qed.

Lemma read_rows_readable (l : list Setoran) :
  Forall readable l -> exists rs, read_rows l = Ok rs.
Proof.
  induction 1 as [|r l [resp R] _ [rs IH]]; simpl.
  - now exists [].
  - rewrite R, IH. now eexists.
Qed.

Lemma Forall_page {A} (P : A -> Prop) (skip limit : nat) (l : list A) :
  Forall P l -> Forall P (firstn limit (skipn skip l)).
Proof.
  intro H. rewrite Forall_forall in *. intros x Hx.
  apply H. rewrite <- (firstn_skipn skip l). apply in_or_app. right.
  rewrite <- (firstn_skipn limit (skipn skip l)). apply in_or_app.
  now left.
Qed.

(** As long as the table is written through the HTTP routes only, it stays
    readable: no two rows share a key, the get route answers every key with
    404 or with the record of that key, never with 500, and the list route
    answers every page. *)
Theorem served_table_readable (db : Db) :
  served db ->
  NoDup (map db_id db) /\
  (forall setoran_id,
      get_setoran_by_id setoran_id db = Err NotFound \/
      exists resp, get_setoran_by_id setoran_id db = Ok resp /\
                   r_id resp = setoran_id) /\
  (forall skip limit,
      exists page, get_all_setoran skip limit db = Ok page).
Proof.
  intro H. destruct (served_invariant db H) as [Hr Hn].
  split; [exact Hn|]. split.
  - intro setoran_id. unfold get_setoran_by_id.
    destruct (query_first setoran_id db) as [row|] eqn:Hq; [|now left].
    right. pose proof (query_first_Some _ _ _ Hq) as [Hin Hid].
    rewrite Forall_forall in Hr. destruct (Hr row Hin) as [resp R].
    exists resp. split; [exact R|].
    now rewrite (read_row_id _ _ R).
  - intros skip limit. unfold get_all_setoran.
    apply read_rows_readable. now apply Forall_page.
Qed.

End Served.

(** * The mock authentication routes

    A shallow embedding of [api/routes/auth.py].  The two module-level
    objects [MOCK_USERS] and [MOCK_SESSION] are the state every route
    reads and writes; there is one session for the whole process. *)

Record MockUser : Type := mkUser {
  user_id : Z;
  user_name : string;
  user_email : string;
  user_password : string;
  user_role : string
}.

Record AuthState : Type := mkAuth {
  MOCK_USERS : list MockUser;
  MOCK_SESSION : option Z     (* MOCK_SESSION["user_id"], [None] or a key *)
}.

(** The module as it is loaded. *)
Definition initial_users : list MockUser :=
  [mkUser 1 "Admin User" "admin@example.com" "admin123" "admin";
   mkUser 2 "Staff User" "staff@example.com" "staff123" "staff"].

Definition initial_auth : AuthState := mkAuth initial_users None.

Record LoginRequest : Type := mkLogin {
  login_email : string;
  login_password : string
}.

Record RegisterRequest : Type := mkRegister {
  reg_name : string;
  reg_email : string;
  reg_password : string;
  reg_role : string
}.

(** A required [str] field without constraints. *)
Definition plain_str (f : field string) : option string :=
  match f with Given s => Some s | _ => None end.

(** Construction of a [RegisterRequest] from a body: [role] defaults to
    ["staff"]. *)
Definition parse_RegisterRequest (name email password role : field string)
  : option RegisterRequest :=
  match plain_str name, plain_str email, plain_str password,
        (match role with
         | Unset => Some "staff"
         | Null => None
         | Given r => Some r
         end) with
  | Some n, Some e, Some p, Some r => Some (mkRegister n e p r)
  | _, _, _, _ => None
  end.

(** The dictionary the three routes answer with: the user without the
    password. *)
Record UserInfo : Type := mkInfo {
  info_id : Z;
  info_name : string;
  info_email : string;
  info_role : string
}.

Definition info_of (u : MockUser) : UserInfo :=
  mkInfo (user_id u) (user_name u) (user_email u) (user_role u).

Inductive auth_error : Type :=
| Unauthorized      (* 401 *)
| EmailRegistered   (* 400 *)
| UserNotFound.     (* 404 *)

Inductive auth_result (A : Type) : Type :=
| Granted (a : A)
| Refused (e : auth_error).
Arguments Granted {A} a.
Arguments Refused {A} e.

(** [login] *)
Definition login (login_data : LoginRequest) (s : AuthState)
  : auth_result UserInfo * AuthState :=
  match find (fun u => String.eqb (user_email u) (login_email login_data)
                       && String.eqb (user_password u)
                                     (login_password login_data))
             (MOCK_USERS s) with
  | None => (Refused Unauthorized, s)
  | Some user =>
      (Granted (info_of user), mkAuth (MOCK_USERS s) (Some (user_id user)))
  end.

(** [register] *)
Definition register (register_data : RegisterRequest) (s : AuthState)
  : auth_result UserInfo * AuthState :=
  match find (fun u => String.eqb (user_email u) (reg_email register_data))
             (MOCK_USERS s) with
  | Some existing_user => (Refused EmailRegistered, s)
  | None =>
      let new_user :=
        mkUser (Z.of_nat (List.length (MOCK_USERS s)) + 1)
               (reg_name register_data) (reg_email register_data)
               (reg_password register_data) (reg_role register_data) in
      (Granted (info_of new_user),
       mkAuth (MOCK_USERS s ++ [new_user])%list (Some (user_id new_user)))
  end.

(** [get_current_user]: [not user_id] holds for [None] and for 0. *)
Definition get_current_user (s : AuthState) : auth_result UserInfo :=
  match MOCK_SESSION s with
  | None => Refused Unauthorized
  | Some uid =>
      if (uid =? 0)%Z then Refused Unauthorized
      else
        match find (fun u => (user_id u =? uid)%Z) (MOCK_USERS s) with
        | None => Refused UserNotFound
        | Some user => Granted (info_of user)
        end
  end.

(** [logout] *)
Definition logout (s : AuthState) : string * AuthState :=
  ("Logged out successfully", mkAuth (MOCK_USERS s) None).

(** The states the routes can bring the module into. *)
Inductive auth_reachable : AuthState -> Prop :=
| auth_start : auth_reachable initial_auth
| auth_login (d : LoginRequest) (s : AuthState) :
    auth_reachable s -> auth_reachable (snd (login d s))
| auth_register (d : RegisterRequest) (s : AuthState) :
    auth_reachable s -> auth_reachable (snd (register d s))
| auth_logout (s : AuthState) :
    auth_reachable s -> auth_reachable (snd (logout s)).

(** What every reachable state satisfies. *)
Definition auth_invariant (s : AuthState) : Prop :=
  NoDup (map user_id (MOCK_USERS s)) /\
  NoDup (map user_email (MOCK_USERS s)) /\
  Forall (fun u => (1 <= user_id u
                    <= Z.of_nat (List.length (MOCK_USERS s)))%Z)
         (MOCK_USERS s) /\
  (forall uid, MOCK_SESSION s = Some uid ->
               exists u, In u (MOCK_USERS s) /\ user_id u = uid) /\
  firstn 2 (MOCK_USERS s) = initial_users.

(** ** The invariant of the mock state *)

Lemma find_unique {A K} (key : A -> K) (eqb : K -> K -> bool)
  (l : list A) (u : A) :
  (forall a b, eqb a b = true <-> a = b) ->
  NoDup (map key l) -> In u l ->
  find (fun x => eqb (key x) (key u)) l = Some u.
Proof.
  intros Heqb. induction l as [|a l IH]; simpl; intros Hn Hin; [tauto|].
  inversion Hn as [|k ks Ha Hl]; subst.
  destruct Hin as [->|Hin].
  - now rewrite (proj2 (Heqb (key u) (key u)) eq_refl).
  - destruct (eqb (key a) (key u)) eqn:E; [|now apply IH].
    apply Heqb in E. exfalso. apply Ha. rewrite E. now apply in_map.
Qed.

Lemma find_none_key {A K} (key : A -> K) (eqb : K -> K -> bool)
  (l : list A) (k : K) :
  (forall a b, eqb a b = true <-> a = b) ->
  (find (fun x => eqb (key x) k) l = None <-> ~ In k (map key l)).
Proof.
  intros Heqb. split.
  - intros F Hin. apply in_map_iff in Hin. destruct Hin as (x & Hk & Hx).
    pose proof (find_none _ _ F x Hx) as E. cbv beta in E.
    rewrite (proj2 (Heqb (key x) k) Hk) in E. discriminate.
  - intro Hn. destruct (find _ l) as [x|] eqn:F; [|reflexivity].
    apply find_some in F. destruct F as [Hx E]. apply Heqb in E.
    exfalso. apply Hn. rewrite <- E. now apply in_map.
Qed.

Lemma firstn_2_snoc {A} (l : list A) (x : A) (a b : A) :
  firstn 2 l = [a; b] -> firstn 2 (l ++ [x]) = [a; b].
Proof.
  destruct l as [|y [|z l]]; simpl; intro H; try discriminate. exact H.
Qed.

Lemma auth_reachable_invariant (s : AuthState) :
  auth_reachable s -> auth_invariant s.
Proof.
  induction 1 as [|d s _ IH|d s _ IH|s _ IH].
  - unfold auth_invariant, initial_auth, initial_users. simpl.
    repeat split.
    + repeat constructor; simpl; intuition discriminate.
    + repeat constructor; simpl; intuition discriminate.
    + repeat constructor; simpl; lia.
    + intros uid H. discriminate.
  - unfold login.
    destruct (find _ (MOCK_USERS s)) as [user|] eqn:F; [|exact IH].
    destruct IH as (I1 & I2 & I3 & _ & I5). simpl.
    unfold auth_invariant. simpl. repeat split; try assumption.
    intros uid H. inversion H; subst. exists user.
    apply find_some in F. tauto.
  - unfold register.
    destruct (find _ (MOCK_USERS s)) as [existing|] eqn:F; [exact IH|].
    destruct IH as (I1 & I2 & I3 & _ & I5). cbv zeta. simpl.
    unfold auth_invariant. simpl.
    rewrite !map_app, length_app. simpl.
    split; [|split; [|split; [|split]]].
    + apply NoDup_snoc; [exact I1|]. intro Hin.
      apply in_map_iff in Hin. destruct Hin as (u & Hid & Hu).
      rewrite Forall_forall in I3. specialize (I3 u Hu). lia.
    + apply NoDup_snoc; [exact I2|].
      apply (find_none_key user_email String.eqb); [|exact F].
      intros a b. apply String.eqb_eq.
    + apply Forall_app. split.
      * rewrite Forall_forall in *. intros u Hu. specialize (I3 u Hu). lia.
      * constructor; [|constructor]. simpl. lia.
    + intros uid H. inversion H; subst. eexists. split.
      * apply in_or_app. right. left. reflexivity.
      * reflexivity.
    + now apply firstn_2_snoc.
  - destruct IH as (I1 & I2 & I3 & _ & I5).
    unfold auth_invariant. simpl. repeat split; try assumption.
    intros uid H. discriminate.
Qed.

Lemma find_by_id (s : AuthState) (u : MockUser) :
  auth_invariant s -> In u (MOCK_USERS s) ->
  find (fun x => (user_id x =? user_id u)%Z) (MOCK_USERS s) = Some u
  /\ (user_id u =? 0)%Z = false.
Proof.
  intros (I1 & _ & I3 & _) Hin. split.
  - apply (find_unique user_id Z.eqb); try assumption.
    intros a b. apply Z.eqb_eq.
  - rewrite Forall_forall in I3. specialize (I3 u Hin).
    apply Z.eqb_neq. lia.
Qed.

(** The session always names a user.  In every state the routes can reach,
    the current-user route answers 401 exactly when nobody is logged in and
    otherwise the user whose key the session holds; its 404 branch is never
    taken, no two users share a key or an email, and the two built-in
    accounts are still the first two entries. *)
Theorem current_user_never_missing (s : AuthState) :
  auth_reachable s ->
  (MOCK_SESSION s = None <-> get_current_user s = Refused Unauthorized) /\
  (forall uid, MOCK_SESSION s = Some uid ->
     exists u, In u (MOCK_USERS s) /\ user_id u = uid /\
               get_current_user s = Granted (info_of u)) /\
  get_current_user s <> Refused UserNotFound /\
  NoDup (map user_id (MOCK_USERS s)) /\
  NoDup (map user_email (MOCK_USERS s)) /\
  firstn 2 (MOCK_USERS s) = initial_users.
Proof.
  intro H. pose proof (auth_reachable_invariant s H) as I.
  assert (L : forall uid, MOCK_SESSION s = Some uid ->
     exists u, In u (MOCK_USERS s) /\ user_id u = uid /\
               get_current_user s = Granted (info_of u)).
  { intros uid Hs. destruct I as (_ & _ & _ & I4 & _).
    destruct (I4 uid Hs) as (u & Hu & Hid). exists u.
    split; [exact Hu|]. split; [exact Hid|].
    destruct (find_by_id s u (auth_reachable_invariant s H) Hu) as [F Z].
    unfold get_current_user. rewrite Hs, <- Hid, Z, F. reflexivity. }
  split; [|split; [exact L|split]].
  - split.
    + intro Hs. unfold get_current_user. now rewrite Hs.
    + intro G. destruct (MOCK_SESSION s) as [uid|] eqn:Hs; [|reflexivity].
      destruct (L uid eq_refl) as (u & _ & _ & G'). congruence.
  - destruct (MOCK_SESSION s) as [uid|] eqn:Hs.
    + destruct (L uid eq_refl) as (u & _ & _ & G'). congruence.
    + unfold get_current_user. rewrite Hs. discriminate.
  - destruct I as (I1 & I2 & _ & _ & I5). repeat split; assumption.
Qed.

(** Logging in: the login route grants exactly when some user has the
    given email and the given password; when it grants, the user list is
    untouched and the current-user route answers the same user from then
    on; when it refuses, it answers 401 and leaves the state, and with it
    whoever was logged in, as it was. *)
Theorem login_effect (d : LoginRequest) (s : AuthState) :
  auth_reachable s ->
  ((exists u, In u (MOCK_USERS s) /\ user_email u = login_email d /\
              user_password u = login_password d) <->
   exists info, fst (login d s) = Granted info) /\
  (forall info s',
      login d s = (Granted info, s') ->
      MOCK_USERS s' = MOCK_USERS s /\
      info_email info = login_email d /\
      get_current_user s' = Granted info) /\
  (forall e s', login d s = (Refused e, s') -> e = Unauthorized /\ s' = s).
Proof.
  intro H. pose proof (auth_reachable_invariant s H) as I.
  unfold login.
  destruct (find _ (MOCK_USERS s)) as [user|] eqn:F.
  - pose proof (find_some _ _ F) as [Hu Hm].
    apply andb_true_iff in Hm. destruct Hm as [He Hp].
    apply String.eqb_eq in He, Hp.
    split; [|split].
    + split; [intros _; now eexists | intros _; now exists user].
    + intros info s' E. inversion E; subst. simpl.
      split; [reflexivity|]. split; [exact He|].
      destruct (find_by_id s user I Hu) as [Fi Z].
      unfold get_current_user. simpl. now rewrite Z, Fi.
    + intros e s' E. discriminate.
  - split; [|split].
    + split.
      * intros (u & Hu & He & Hp). pose proof (find_none _ _ F u Hu) as N.
        cbv beta in N. rewrite He, Hp, !String.eqb_refl in N. discriminate.
      * intros (info & E). discriminate.
    + intros info s' E. discriminate.
    + intros e s' E. inversion E. now split.
Qed.

Lemma find_app_none {A} (f : A -> bool) (l k : list A) :
  find f l = None -> find f (l ++ k) = find f k.
Proof.
  induction l as [|x l IH]; simpl; [reflexivity|].
  destruct (f x); [discriminate | exact IH].
Qed.

(** Registering: an email some user already has is refused with 400 and
    changes nothing.  Any other request appends one user whose key is the
    number of users plus one and whose role is whatever the request says
    (["staff"] only when the body leaves the role out), logs that user in,
    and from then on the login route grants the same user for the email
    and password just registered. *)
Theorem register_effect (d : RegisterRequest) (s : AuthState) :
  auth_reachable s ->
  let new_user :=
    mkUser (Z.of_nat (List.length (MOCK_USERS s)) + 1)
           (reg_name d) (reg_email d) (reg_password d) (reg_role d) in
  let s' := mkAuth (MOCK_USERS s ++ [new_user])%list
                   (Some (user_id new_user)) in
  (In (reg_email d) (map user_email (MOCK_USERS s)) ->
   register d s = (Refused EmailRegistered, s)) /\
  (~ In (reg_email d) (map user_email (MOCK_USERS s)) ->
   register d s = (Granted (info_of new_user), s') /\
   get_current_user s' = Granted (info_of new_user) /\
   login (mkLogin (reg_email d) (reg_password d)) s'
   = (Granted (info_of new_user), s')) /\
  (forall n e p,
      parse_RegisterRequest (Given n) (Given e) (Given p) Unset
      = Some (mkRegister n e p "staff")) /\
  (forall n e p r,
      parse_RegisterRequest (Given n) (Given e) (Given p) (Given r)
      = Some (mkRegister n e p r)).
Proof.
  intro H. cbv zeta.
  assert (Heq : forall a b : string, String.eqb a b = true <-> a = b)
    by (intros a b; apply String.eqb_eq).
  split; [|split; [|split; reflexivity]].
  - intro Hin. unfold register.
    destruct (find _ (MOCK_USERS s)) eqn:F; [reflexivity|].
    apply (find_none_key user_email String.eqb _ _ Heq) in F. contradiction.
  - intro Hn.
    assert (F : find (fun u => String.eqb (user_email u) (reg_email d))
                     (MOCK_USERS s) = None)
      by now apply (find_none_key user_email String.eqb _ _ Heq).
    assert (R : register d s
                = (Granted (info_of
                     (mkUser (Z.of_nat (List.length (MOCK_USERS s)) + 1)
                        (reg_name d) (reg_email d) (reg_password d)
                        (reg_role d))),
                   mkAuth (MOCK_USERS s ++
                     [mkUser (Z.of_nat (List.length (MOCK_USERS s)) + 1)
                        (reg_name d) (reg_email d) (reg_password d)
                        (reg_role d)])%list
                     (Some (Z.of_nat (List.length (MOCK_USERS s)) + 1)%Z)))
      by (unfold register; now rewrite F).
    split; [exact R|].
    pose proof (auth_register d s H) as H'. rewrite R in H'. cbn [snd] in H'.
    pose proof (auth_reachable_invariant _ H') as I'.
    split.
    + match type of I' with
      | auth_invariant ?st =>
          destruct (find_by_id st
                      (mkUser (Z.of_nat (List.length (MOCK_USERS s)) + 1)
                         (reg_name d) (reg_email d) (reg_password d)
                         (reg_role d)) I') as [Fi Z]
      end.
      { simpl. apply in_or_app. right. now left. }
      unfold get_current_user. cbn [MOCK_SESSION MOCK_USERS user_id] in *.
      now rewrite Z, Fi.
    + unfold login. cbn [MOCK_USERS login_email login_password].
      rewrite find_app_none.
      * cbn [find user_email user_password].
        now rewrite !String.eqb_refl.
      * match goal with
        | |- find ?f (MOCK_USERS s) = None =>
            destruct (find f (MOCK_USERS s)) as [u|] eqn:G; [|reflexivity]
        end.
        apply find_some in G. destruct G as [Hu Hm].
        apply andb_true_iff in Hm. destruct Hm as [He _].
        apply String.eqb_eq in He. exfalso. apply Hn.
        rewrite <- He. now apply in_map.
Qed.

(** The built-in accounts cannot be removed, changed or shadowed: in every
    state the routes can reach, the login route grants the admin user for
    the admin credentials written in the module and the staff user for the
    staff credentials; and no route ever removes or changes a user, each
    only appends at most one. *)
Theorem builtin_accounts_remain (s : AuthState) :
  auth_reachable s ->
  fst (login (mkLogin "admin@example.com" "admin123") s)
  = Granted (mkInfo 1 "Admin User" "admin@example.com" "admin") /\
  fst (login (mkLogin "staff@example.com" "staff123") s)
  = Granted (mkInfo 2 "Staff User" "staff@example.com" "staff") /\
  (forall d, MOCK_USERS (snd (login d s)) = MOCK_USERS s) /\
  MOCK_USERS (snd (logout s)) = MOCK_USERS s /\
  (forall d, exists added,
      MOCK_USERS (snd (register d s)) = (MOCK_USERS s ++ added)%list /\
      (List.length added <= 1)%nat).
Proof.
  intro H. destruct (auth_reachable_invariant s H) as (_ & _ & _ & _ & I5).
  destruct (MOCK_USERS s) as [|a [|b rest]] eqn:U; try discriminate I5.
  unfold initial_users in I5. simpl in I5. inversion I5; subst a b.
  split; [|split; [|split; [|split]]].
  - unfold login. rewrite U. reflexivity.
  - unfold login. rewrite U. reflexivity.
  - intro d. unfold login. destruct (find _ _); simpl; now rewrite ?U.
  - simpl. now rewrite U.
  - intro d. unfold register. rewrite U.
    destruct (find _ _); cbv zeta; cbn [snd MOCK_USERS].
    + exists []. split; [now rewrite app_nil_r | simpl; lia].
    + eexists. split; [reflexivity | simpl; lia].
Qed.

(** * The time pattern *)

(** The character of a decimal digit, and a clock time written with two
    digits for the minute and one or two for the hour ([pad] asks for the
    leading zero of an hour below ten). *)
Definition digit (n : nat) : ascii := ascii_of_nat (48 + n).

Definition two_digits (n : nat) : string :=
  String (digit (n / 10)) (String (digit (n mod 10)) EmptyString).

Definition clock_text (pad : bool) (h m : nat) : string :=
  (if pad || (10 <=? h)%nat
   then two_digits h
   else String (digit h) EmptyString)
  ++ String ":" (two_digits m).

Lemma in_range_digit (lo hi : N) (c : ascii) :
  (48 <= lo)%N -> in_range lo hi c = true ->
  exists n, (N.to_nat lo - 48 <= n <= N.to_nat hi - 48)%nat /\ c = digit n.
Proof.
  intros Hlo H. unfold in_range in H. apply andb_true_iff in H.
  destruct H as [H1 H2]. apply N.leb_le in H1, H2.
  exists (N.to_nat (N_of_ascii c) - 48)%nat. split; [lia|].
  unfold digit.
  replace (48 + (N.to_nat (N_of_ascii c) - 48))%nat
    with (N.to_nat (N_of_ascii c)) by lia.
  unfold ascii_of_nat. rewrite N2Nat.id. symmetry.
  apply ascii_N_embedding.
Qed.

Ltac case_upto n :=
  let rec go :=
    (destruct n as [|n]; [ | first [ (exfalso; lia) | go ] ]) in go.

Lemma two_digits_of (a b : nat) :
  (a <= 5)%nat -> (b <= 9)%nat ->
  two_digits (10 * a + b)
  = String (digit a) (String (digit b) EmptyString).
Proof.
  intros Ha Hb. case_upto a; case_upto b; reflexivity.
Qed.

Lemma clock_texts_match :
  forallb (fun h =>
    forallb (fun m => time_pattern (clock_text true h m)
                      && time_pattern (clock_text false h m))
            (seq 0 60))
    (seq 0 24) = true.
Proof. vm_compute. reflexivity. Qed.

(** The pattern of [jam_masuk] and [jam_keluar] accepts exactly the times
    of a 24-hour clock: a string matches if and only if it is an hour below
    24, written with or without a leading zero, a colon, and a minute below
    60 written with two digits. *)
Theorem time_pattern_clock (s : string) :
  time_pattern s = true <->
  exists pad h m, (h < 24)%nat /\ (m < 60)%nat /\ s = clock_text pad h m.
Proof.
  split.
  - unfold time_pattern. intro H.
    destruct s as [|c1 [|c2 [|c3 [|c4 [|c5 [|c6 s]]]]]];
      cbn [list_ascii_of_string] in H; try discriminate H.
    + (* H:MM *)
      do 3 (apply andb_true_iff in H; destruct H as [H ?]).
      destruct (in_range_digit 48 57 c1) as (h & Bh & ->); [lia|assumption|].
      destruct (in_range_digit 58 58 c2) as (k & Bk & ->); [lia|assumption|].
      destruct (in_range_digit 48 53 c3) as (a & Ba & ->); [lia|assumption|].
      destruct (in_range_digit 48 57 c4) as (b & Bb & ->); [lia|assumption|].
      assert (k = 10%nat) by lia. subst k.
      exists false, h, (10 * a + b)%nat.
      split; [lia|]. split; [lia|].
      unfold clock_text. rewrite two_digits_of by lia.
      assert (E : (10 <=? h)%nat = false) by (apply Nat.leb_gt; lia).
      rewrite E. reflexivity.
    + (* HH:MM *)
      do 3 (apply andb_true_iff in H; destruct H as [H ?]).
      destruct (in_range_digit 58 58 c3) as (k & Bk & ->); [lia|assumption|].
      destruct (in_range_digit 48 53 c4) as (a & Ba & ->); [lia|assumption|].
      destruct (in_range_digit 48 57 c5) as (b & Bb & ->); [lia|assumption|].
      assert (k = 10%nat) by lia. subst k.
      assert (Hh : exists x y, (x <= 2)%nat /\ (y <= 9)%nat /\
                               (10 * x + y < 24)%nat /\
                               c1 = digit x /\ c2 = digit y).
      { apply orb_true_iff in H. destruct H as [H|H];
          apply andb_true_iff in H; destruct H as [Hx Hy].
        - destruct (in_range_digit 48 49 c1) as (x & Bx & ->);
            [lia|assumption|].
          destruct (in_range_digit 48 57 c2) as (y & By & ->);
            [lia|assumption|].
          exists x, y. repeat split; lia.
        - destruct (in_range_digit 50 50 c1) as (x & Bx & ->);
            [lia|assumption|].
          destruct (in_range_digit 48 51 c2) as (y & By & ->);
            [lia|assumption|].
          exists x, y. repeat split; lia. }
      destruct Hh as (x & y & Hx & Hy & Hlt & -> & ->).
      exists true, (10 * x + y)%nat, (10 * a + b)%nat.
      split; [lia|]. split; [lia|].
      unfold clock_text. cbn [orb]. rewrite !two_digits_of by lia.
      reflexivity.
  - intros (pad & h & m & Hh & Hm & ->).
    pose proof clock_texts_match as F.
    rewrite forallb_forall in F.
    assert (Hin : In h (seq 0 24)) by (apply in_seq; lia).
    specialize (F h Hin). rewrite forallb_forall in F.
    assert (Hin' : In m (seq 0 60)) by (apply in_seq; lia).
    specialize (F m Hin'). apply andb_true_iff in F.
    destruct pad; tauto.
Qed.

(** * The further properties on concrete states *)


Lemma get_after_post_witness :
  exists resp db',
    post_setoran (payload_of shift) [] = (Ok resp, db') /\
    get_setoran_by_id (r_id resp) db' = Ok resp.
Proof.
  eexists. eexists. split.
  - reflexivity.
  - apply (get_after_post (payload_of shift) []). reflexivity.
Defined.

Lemma get_after_put_witness :
  exists resp db',
    put_setoran 1 qris_patch [stored_row] = (Ok resp, db') /\
    get_setoran_by_id 1 db' = Ok resp.
Proof.
  eexists. eexists. split.
  - reflexivity.
  - apply (get_after_put 1 qris_patch [stored_row]). reflexivity.
Defined.

(** A patch that gives [null] for the employee name. *)
Definition null_name_patch : Payload :=
  mkPayload Null Unset Unset Unset Unset (Given 100000) Unset Unset.

Lemma null_patch_refused_witness :
  exists e, put_setoran 1 null_name_patch [stored_row] = (Err e, [stored_row]).
Proof.
  apply (null_patch_refused 1 null_name_patch [stored_row]).
  left. reflexivity.
Defined.

Lemma update_commits_before_failing_witness :
  put_setoran 1 name_patch [corrupt_row]
  = (Err BadRequest, [renamed_row name_patch corrupt_row]).
Proof.
  apply (update_commits_before_failing 1 name_patch [corrupt_row]
           corrupt_row "{oops").
  - reflexivity.
  - repeat split.
  - intros [H|[H|H]]; discriminate H.
  - left. reflexivity.
  - reflexivity.
  - reflexivity.
Defined.

Lemma served_table_readable_witness :
  exists page,
    get_all_setoran 0 100
      (snd (put_setoran 1 qris_patch (snd (post_setoran (payload_of shift) []))))
    = Ok page.
Proof.
  apply (served_table_readable
           (snd (put_setoran 1 qris_patch
                   (snd (post_setoran (payload_of shift) []))))).
  apply served_put. apply served_post. apply served_empty.
Defined.

(** The state after a user is registered on the freshly loaded module. *)
Definition new_staff : RegisterRequest :=
  mkRegister "Budi" "budi@example.com" "rahasia" "admin".

Definition registered_auth : AuthState := snd (register new_staff initial_auth).

Lemma current_user_never_missing_witness :
  get_current_user registered_auth <> Refused UserNotFound.
Proof.
  apply (current_user_never_missing registered_auth).
  unfold registered_auth. apply auth_register. apply auth_start.
Defined.

Lemma login_effect_witness :
  get_current_user
    (snd (login (mkLogin "staff@example.com" "staff123") registered_auth))
  = Granted (mkInfo 2 "Staff User" "staff@example.com" "staff").
Proof.
  destruct (login_effect (mkLogin "staff@example.com" "staff123")
              registered_auth) as (_ & G & _).
  - unfold registered_auth. apply auth_register. apply auth_start.
  - apply (G (mkInfo 2 "Staff User" "staff@example.com" "staff")
             (snd (login (mkLogin "staff@example.com" "staff123")
                         registered_auth))).
    reflexivity.
Defined.

Lemma register_effect_witness :
  register new_staff initial_auth
  = (Granted (mkInfo 3 "Budi" "budi@example.com" "admin"), registered_auth)
  /\ register new_staff registered_auth
     = (Refused EmailRegistered, registered_auth).
Proof.
  split.
  - destruct (register_effect new_staff initial_auth auth_start)
      as (_ & G & _).
    destruct G as (R & _).
    + simpl. intros [H|[H|[]]]; discriminate H.
    + exact R.
  - destruct (register_effect new_staff registered_auth) as (T & _).
    + unfold registered_auth. apply auth_register. apply auth_start.
    + apply T. simpl. right. right. left. reflexivity.
Defined.

Lemma builtin_accounts_remain_witness :
  fst (login (mkLogin "admin@example.com" "admin123") registered_auth)
  = Granted (mkInfo 1 "Admin User" "admin@example.com" "admin").
Proof.
  apply (builtin_accounts_remain registered_auth).
  unfold registered_auth. apply auth_register. apply auth_start.
Defined.

(** * Binary64 arithmetic and the order of the items

    Whether the order of the items matters is a question of rounding, which
    exact rationals cannot show.  This part embeds the engine a second time
    on IEEE-754 binary64 numbers, the values of a Python [float]. *)











(** The exact value of a finite binary64 number. *)
Definition exact (x : float) : Q :=
  match Prim2SF x with
  | S754_finite s m e =>
      (if s then - 1 else 1) * (Zpos m # 1) * Qpower 2 e
  | _ => 0
  end.






(** ** The order of the items *)

Example exact_values :
  exact 4%float == 4 /\ exact 9007199254740994%float == 9007199254740994 /\
  exact 0x1.fffffffffffffp-1%float == 1 - (1 # 9007199254740992).
Proof. vm_compute. repeat split. Qed.





